(** * cam_exploration: the exploration node's control loop

    A shallow embedding of [src/cam_exploration.cpp]: the goal scan
    [decideGoal], the map callback [getFrontiers], [finish], and the main
    loop of [spin] with its start-up configuration.

    The node talks to collaborators whose code lives in other files
    (RobotMotion, MapServer, replan::Replaner, strategy::goalSelector,
    MarkerPublisher, the ROS runtime).  Every call to one of them is
    recorded as an [Event]; a query is recorded with the answer it gave.
    The answers of one loop iteration are collected in a [Tick] record,
    so that the loop is a function of the answers it is given.

    Two steps of the source have no defined behaviour in C++:
    dereferencing [f_it] when it has reached [fmap.end()], and calling
    through the [goal_selector] pointer while it is still null.  Both are
    modelled as a [Fault] that ends the run; the events issued before the
    fault are kept.

    Console output at INFO level (ROS_INFO, ROS_INFO_ONCE) is left out;
    ROS_WARN and ROS_ERROR are events. *)

From Stdlib Require Import List Bool String Arith Lia.
Import ListNotations.
Local Open Scope string_scope.
Local Open Scope list_scope.

Set Implicit Arguments.

(** ** Collaborator interface *)

(** The types the node only passes around, and the one goal-selection
    strategy the node can construct.  [strategy::goalSelector] is an
    abstract class with one virtual method
    [bool decideGoal(const frontier&, geometry_msgs::Pose& goal)];
    the object may keep internal bookkeeping, so the method is a function
    of the object's state, the frontier and the pose variable it is handed
    by reference, and returns the verdict, the pose variable afterwards and
    the object's state afterwards. *)
Class Strategy : Type := {
  Frontier : Type;
  Points : Type;
  Pose : Type;
  Selector : Type;
  (* the member [points] of a frontier *)
  points : Frontier -> Points;
  (* a default-constructed geometry_msgs::Pose *)
  default_pose : Pose;
  (* new midPoint() *)
  midPoint : Selector;
  (* goal_selector->decideGoal(frontier, goal) *)
  goalSelector_decideGoal : Selector -> Frontier -> Pose -> bool * Pose * Selector
}.

(** Steps without defined behaviour. *)
Inductive Fault : Type :=
| NullSelector   (* call through the null goal_selector pointer *)
| PastTheEnd.    (* f_it dereferenced at fmap.end() *)

Inductive result (A : Type) : Type :=
| Done (a : A)
| Undefined (f : Fault).

Arguments Done {A} a.
Arguments Undefined {A} f.

Section Node.

Context {strategy : Strategy}.

(** FrontiersMap: the frontiers in iteration order. *)
Definition FrontiersMap : Type := list Frontier.

(** Calls to collaborators, in program order. *)
Inductive Event : Type :=
| E_addCause (name : string) (parameters : option (list (string * string)))
| E_ROS_ERROR (msg : string)
| E_ROS_WARN (msg : string)
| E_mapReceived (answer : bool)
| E_setMapReceived
| E_refreshPose (answer : bool)
| E_replan (answer : bool)
| E_printStatus
| E_decideGoal                                   (* entry of decideGoal() *)
| E_select (f : Frontier) (accepted : bool)      (* goal_selector->decideGoal on the frontier under f_it *)
| E_publish_f_goal (pts : Points)
| E_publish_goal (goal : Pose)
| E_goTo (goal : Pose)
| E_isMoving (answer : bool)
| E_cancelGoal
| E_shutdown
| E_spinOnce
| E_sleep.

(** ** Trace-and-fault monad *)

Definition M (A : Type) : Type := (list Event * result A)%type.

Definition ret {A : Type} (a : A) : M A := ([], Done a).

Definition bind {A B : Type} (m : M A) (k : A -> M B) : M B :=
  match m with
  | (tr, Done a) => let (tr', r) := k a in (tr ++ tr', r)
  | (tr, Undefined f) => (tr, Undefined f)
  end.

Definition emit (e : Event) : M unit := ([e], Done tt).

Definition fault {A : Type} (f : Fault) : M A := ([], Undefined f).

Definition trace {A : Type} (m : M A) : list Event := fst m.

Definition outcome {A : Type} (m : M A) : result A := snd m.

Notation "x <- m ;; k" := (bind m (fun x => k))
  (at level 61, m at next level, right associativity).
Notation "m ;;; k" := (bind m (fun _ => k))
  (at level 61, right associativity).

(** ** decideGoal *)

(** The [while] loop of [decideGoal]: [fs] is what is left of the
    sequence from [f_it] on.  The loop has no test against [fmap.end()]. *)
Fixpoint scan (sel : Selector) (fs : FrontiersMap) (goal : Pose)
  : M (Frontier * Pose * Selector) :=
  match fs with
  | [] => fault PastTheEnd
  | f :: rest =>
      let '(accepted, goal', sel') := goalSelector_decideGoal sel f goal in
      emit (E_select f accepted) ;;;
      if accepted then ret (f, goal', sel') else scan sel' rest goal'
  end.

(** [decideGoal()]; the two globals it reads are arguments, the state of
    the selector object afterwards is returned with the goal.  With a null
    [goal_selector] the first selector call already has no defined
    behaviour, whatever the frontier map holds. *)
Definition decideGoal (fmap : FrontiersMap) (goal_selector : option Selector)
  : M (Pose * Selector) :=
  emit E_decideGoal ;;;
  match goal_selector with
  | None => fault NullSelector
  | Some sel =>
      r <- scan sel fmap default_pose ;;
      let '(f, goal, sel') := r in
      emit (E_publish_f_goal (points f)) ;;;
      emit (E_publish_goal goal) ;;;
      ret (goal, sel')
  end.

(** Two calls of [decideGoal()] in a row on the same frontier map; the
    second call finds the selector object as the first one left it. *)
Definition decideGoal_twice (fmap : FrontiersMap) (sel : Selector)
  : M (Pose * Pose) :=
  r1 <- decideGoal fmap (Some sel) ;;
  r2 <- decideGoal fmap (Some (snd r1)) ;;
  ret (fst r1, fst r2).

(** ** The node's variables *)

(** The globals [fmap] and [goal_selector], the locals [first_time] and
    [exploration_finished] of [spin], and what [ros::ok()] answers.  The
    global [robot] is a collaborator: its calls are events. *)
Record Node : Type := mkNode {
  fmap : FrontiersMap;
  goal_selector : option Selector;   (* None is the null pointer *)
  first_time : bool;
  exploration_finished : bool;
  ok : bool
}.

Definition set_fmap (f_in : FrontiersMap) (n : Node) : Node :=
  mkNode f_in (goal_selector n) (first_time n) (exploration_finished n) (ok n).

Definition set_goal_selector (p : option Selector) (n : Node) : Node :=
  mkNode (fmap n) p (first_time n) (exploration_finished n) (ok n).

Definition set_first_time (b : bool) (n : Node) : Node :=
  mkNode (fmap n) (goal_selector n) b (exploration_finished n) (ok n).

Definition set_ok (b : bool) (n : Node) : Node :=
  mkNode (fmap n) (goal_selector n) (first_time n) (exploration_finished n) b.

(** What the collaborators answer during one iteration of the main loop,
    and the frontier maps that [ros::spinOnce()] hands to the map callback
    at the end of it (oldest first). *)
Record Tick : Type := mkTick {
  mapReceived : bool;    (* mapServer.mapReceived() *)
  refreshPose : bool;    (* robot.refreshPose() *)
  replan : bool;         (* replaner.replan() *)
  isMoving : bool;       (* robot.isMoving() *)
  incoming : list FrontiersMap
}.

(** The parameters [spin] reads from the parameter server. *)
Record Config : Type := mkConfig {
  (* replaning/conditions *)
  replan_conditions : list string;
  (* replaning/<cause>, when it is set *)
  cause_parameters : string -> option (list (string * string));
  (* goal_selector/type, when it is set *)
  goal_selector_type : option string
}.

(** ** getFrontiers, finish *)

Definition getFrontiers (n : Node) (f_in : FrontiersMap) : Node :=
  set_fmap f_in n.

Definition finish (n : Node) (a : Tick) : M Node :=
  emit (E_isMoving (isMoving a)) ;;;
  (if isMoving a then emit E_cancelGoal else ret tt) ;;;
  emit E_shutdown ;;;
  ret (set_ok false n).

(** ** spin *)

(** The body of the [while (ros::ok())] loop up to, and without,
    [ros::spinOnce()]. *)
Definition tick (n : Node) (a : Tick) : M Node :=
  emit (E_mapReceived (mapReceived a)) ;;;
  if mapReceived a then
    emit E_setMapReceived ;;;
    if exploration_finished n then finish n a
    else
      emit (E_refreshPose (refreshPose a)) ;;;
      if refreshPose a then
        emit (E_replan (replan a)) ;;;
        if replan a || first_time n then
          let n1 := if first_time n then set_first_time false n else n in
          emit E_printStatus ;;;
          r <- decideGoal (fmap n1) (goal_selector n1) ;;
          let '(goal, sel') := r in
          emit (E_goTo goal) ;;;
          ret (set_goal_selector (Some sel') n1)
        else ret n
      else
        emit (E_ROS_WARN "Couldn't get robot position!") ;;;
        ret n
  else ret n.

(** [ros::spinOnce()]: the queued map messages reach [getFrontiers]. *)
Definition spinOnce (n : Node) (a : Tick) : M Node :=
  emit E_spinOnce ;;;
  ret (fold_left getFrontiers (incoming a) n).

(** One pass through the loop body. *)
Definition iteration (n : Node) (a : Tick) : M Node :=
  n1 <- tick n a ;;
  n2 <- spinOnce n1 a ;;
  emit E_sleep ;;;
  ret n2.

(** [while (ros::ok()) { ... }], for as many iterations as there are
    answers; the end of the list is a stop from outside. *)
Fixpoint loop (n : Node) (ticks : list Tick) : M Node :=
  match ticks with
  | [] => ret n
  | a :: rest =>
      if ok n then n1 <- iteration n a ;; loop n1 rest else ret n
  end.

(** The loop over the replanning conditions. *)
Fixpoint add_causes (cause : string -> option (list (string * string)))
  (conditions : list string) : M unit :=
  match conditions with
  | [] => ret tt
  | c :: rest => emit (E_addCause c (cause c)) ;;; add_causes cause rest
  end.

(** The "decideGoal setup" block: the value of the global [goal_selector]
    after it; the global starts as the null pointer. *)
Definition setup_goal_selector (type : option string) : M (option Selector) :=
  match type with
  | Some g_selector_name =>
      if String.eqb g_selector_name "mid_point" then ret (Some midPoint)
      else
        emit (E_ROS_ERROR ("String " ++ g_selector_name
                             ++ " does not name a valid goal selector")) ;;;
        ret None
  | None =>
      emit (E_ROS_ERROR "Parameter goal_selector has not been configured") ;;;
      ret None
  end.

(** The node when the main loop is reached: [fmap] is still the empty
    default-constructed map (the [ros::spinOnce()] at the top of [spin]
    runs before the map callback is subscribed), [first_time] is true and
    [exploration_finished] false. *)
Definition start (p : option Selector) : Node :=
  mkNode [] p true false true.

(** [spin] up to the main loop.  The subscriptions and the set-up of the
    marker publisher issue no event. *)
Definition startup (cfg : Config) : M Node :=
  add_causes (cause_parameters cfg) (replan_conditions cfg) ;;;
  p <- setup_goal_selector (goal_selector_type cfg) ;;
  ret (start p).

Definition spin (cfg : Config) (ticks : list Tick) : M Node :=
  n <- startup cfg ;;
  loop n ticks.

(** ** Observations on traces *)

Definition is_goTo (e : Event) : bool :=
  match e with E_goTo _ => true | _ => false end.

Definition is_cancelGoal (e : Event) : bool :=
  match e with E_cancelGoal => true | _ => false end.

Definition is_refreshPose (e : Event) : bool :=
  match e with E_refreshPose _ => true | _ => false end.

Definition count (p : Event -> bool) (tr : list Event) : nat :=
  List.length (filter p tr).

(** The events that [decideGoal()] can issue. *)
Definition from_decideGoal (e : Event) : bool :=
  match e with
  | E_decideGoal | E_select _ _ | E_publish_f_goal _ | E_publish_goal _ => true
  | _ => false
  end.

(** A goal was handed to [robot.goTo]. *)
Definition dispatches (tr : list Event) : Prop := existsb is_goTo tr = true.

(** The frontiers handed to the goal selector, in call order. *)
Fixpoint selected (tr : list Event) : list Frontier :=
  match tr with
  | [] => []
  | E_select f _ :: rest => f :: selected rest
  | _ :: rest => selected rest
  end.

(** The selector declines every frontier of [fs] in turn: started in
    state [sel] with the pose variable holding [goal], it ends in state
    [sel'] with the pose variable holding [goal']. *)
Inductive Declined : Selector -> Pose -> FrontiersMap -> Selector -> Pose -> Prop :=
| Declined_nil : forall sel goal, Declined sel goal [] sel goal
| Declined_cons : forall sel goal f goal1 sel1 fs sel' goal',
    goalSelector_decideGoal sel f goal = (false, goal1, sel1) ->
    Declined sel1 goal1 fs sel' goal' ->
    Declined sel goal (f :: fs) sel' goal'.

(** A tick on which the goal scan cannot be reached: no map was reported,
    or the pose refresh failed. *)
Definition stalled (a : Tick) : bool :=
  negb (mapReceived a) || negb (refreshPose a).

End Node.

(** ** Phases of the specification *)

Section Phases.

Context {strategy : Strategy}.

(** The source keeps no phase variable.  This definition follows the
    specification's state machine: Waiting-for-map is left on the first
    tick on which the map server reports a map, Finished is entered on the
    tick that runs [finish()], and no phase is ever re-entered. *)
Inductive ExplorationPhase : Type :=
| WaitingForMap
| Exploring
| Finished.

(** The phase during tick [a], given the phase before it. *)
Definition phase_step (p : ExplorationPhase) (n : Node) (a : Tick)
  : ExplorationPhase :=
  match p with
  | Finished => Finished
  | _ =>
      if mapReceived a
      then (if exploration_finished n then Finished else Exploring)
      else p
  end.

(** The phase once the iterations [ticks] have run from node [n]. *)
Fixpoint phase_after (p : ExplorationPhase) (n : Node) (ticks : list Tick)
  : ExplorationPhase :=
  match ticks with
  | [] => p
  | a :: rest =>
      match outcome (iteration n a) with
      | Done n1 => phase_after (phase_step p n a) n1 rest
      | Undefined _ => phase_step p n a
      end
  end.

(** The reading of "the pose is refreshed on every tick of the Exploring
    phase, whether or not a map update arrived": whatever ran before, if
    the loop is alive and in Exploring, the next tick calls
    [robot.refreshPose()]. *)
Definition pose_refreshed_on_every_Exploring_tick : Prop :=
  forall (p : option Selector) (before : list Tick) (n : Node) (a : Tick),
    outcome (loop (start p) before) = Done n ->
    ok n = true ->
    phase_after WaitingForMap (start p) before = Exploring ->
    existsb is_refreshPose (trace (tick n a)) = true.

End Phases.

(** ** Two concrete strategies *)

(** Frontiers, points and poses are numbers; a frontier is accepted when
    it is even, and the goal is then ten times the frontier.  The selector
    keeps no state. *)
Definition even_only : Strategy := {|
  Frontier := nat;
  Points := nat;
  Pose := nat;
  Selector := unit;
  points := fun f => f;
  default_pose := 0;
  midPoint := tt;
  goalSelector_decideGoal := fun sel f goal =>
    if Nat.even f then (true, 10 * f, sel) else (false, goal, sel)
|}.

(** A selector with bookkeeping: it counts its calls and declines the
    very first one. *)
Definition second_look : Strategy := {|
  Frontier := nat;
  Points := nat;
  Pose := nat;
  Selector := nat;
  points := fun f => f;
  default_pose := 0;
  midPoint := 0;
  goalSelector_decideGoal := fun calls f goal =>
    match calls with
    | 0 => (false, goal, 1)
    | S _ => (true, 10 * f, S calls)
    end
|}.

(** No replanning causes, and the one valid selector name. *)
Definition plain_config : Config :=
  mkConfig [] (fun _ => None) (Some "mid_point").

(** No replanning causes, and a selector name the node does not know. *)
Definition unknown_selector_config : Config :=
  mkConfig [] (fun _ => None) (Some "nearest").

(** Events, ticks and nodes of the [even_only] strategy. *)
Local Abbreviation ev_select := (@E_select even_only).
Local Abbreviation ev_publish_f_goal := (@E_publish_f_goal even_only).
Local Abbreviation ev_publish_goal := (@E_publish_goal even_only).
Local Abbreviation ev_goTo := (@E_goTo even_only).
Local Abbreviation ev_tick := (@mkTick even_only).
Local Abbreviation ev_node := (@mkNode even_only).
Local Abbreviation ev_start := (@start even_only).

(** ** Further observations *)

Section Observations.

Context {strategy : Strategy}.

Definition is_replan (e : Event) : bool :=
  match e with E_replan _ => true | _ => false end.

Definition is_ROS_WARN (e : Event) : bool :=
  match e with E_ROS_WARN _ => true | _ => false end.

(** The calls made by [finish()]. *)
Definition from_finish (e : Event) : bool :=
  match e with
  | E_isMoving _ | E_cancelGoal | E_shutdown => true
  | _ => false
  end.

(** The answers with which a tick of the exploring loop reaches
    [decideGoal()], given the value of [first_time]. *)
Definition scans_at (first : bool) (a : Tick) : bool :=
  mapReceived a && refreshPose a && (replan a || first).

(** A map is reported and the pose refresh fails. *)
Definition pose_fails (a : Tick) : bool :=
  mapReceived a && negb (refreshPose a).

(** The selector object has no bookkeeping: no call changes its state. *)
Definition stateless_selector : Prop :=
  forall sel f goal, snd (goalSelector_decideGoal sel f goal) = sel.

End Observations.

(** ** Properties *)

Section Properties.

Context {strategy : Strategy}.

Ltac run_tick := unfold tick, finish, bind, emit, ret; simpl.

(** *** The four ways through a tick *)

Lemma tick_no_map (n : Node) (a : Tick) :
  mapReceived a = false ->
  tick n a = ([E_mapReceived false], Done n).
Proof. intros H. run_tick. rewrite H. reflexivity. Qed.

Lemma tick_finished (n : Node) (a : Tick) :
  mapReceived a = true ->
  exploration_finished n = true ->
  tick n a =
    ([E_mapReceived true; E_setMapReceived; E_isMoving (isMoving a)]
       ++ (if isMoving a then [E_cancelGoal] else []) ++ [E_shutdown],
     Done (set_ok false n)).
Proof.
  intros Hm Hf. run_tick. rewrite Hm, Hf. destruct (isMoving a); reflexivity.
Qed.

Lemma tick_pose_failed (n : Node) (a : Tick) :
  mapReceived a = true ->
  exploration_finished n = false ->
  refreshPose a = false ->
  tick n a =
    ([E_mapReceived true; E_setMapReceived; E_refreshPose false;
      E_ROS_WARN "Couldn't get robot position!"],
     Done n).
Proof. intros Hm Hf Hp. run_tick. rewrite Hm, Hf, Hp. reflexivity. Qed.

Lemma tick_keep_goal (n : Node) (a : Tick) :
  mapReceived a = true ->
  exploration_finished n = false ->
  refreshPose a = true ->
  replan a = false ->
  first_time n = false ->
  tick n a =
    ([E_mapReceived true; E_setMapReceived; E_refreshPose true; E_replan false],
     Done n).
Proof.
  intros Hm Hf Hp Hr Ht. run_tick. rewrite Hm, Hf, Hp, Hr, Ht. reflexivity.
Qed.

Lemma set_first_time_false_id (n : Node) :
  first_time n = false -> set_first_time false n = n.
Proof. destruct n; simpl; intros ->; reflexivity. Qed.

Lemma tick_scan (n : Node) (a : Tick) :
  mapReceived a = true ->
  exploration_finished n = false ->
  refreshPose a = true ->
  replan a || first_time n = true ->
  tick n a =
    match decideGoal (fmap n) (goal_selector n) with
    | (tr, Done (goal, sel')) =>
        ([E_mapReceived true; E_setMapReceived; E_refreshPose true;
          E_replan (replan a); E_printStatus] ++ tr ++ [E_goTo goal],
         Done (set_goal_selector (Some sel') (set_first_time false n)))
    | (tr, Undefined f) =>
        ([E_mapReceived true; E_setMapReceived; E_refreshPose true;
          E_replan (replan a); E_printStatus] ++ tr,
         Undefined f)
    end.
Proof.
  intros Hm Hf Hp Hs. unfold tick. rewrite Hm, Hf, Hp, Hs.
  assert (Hn : (if first_time n then set_first_time false n else n)
               = set_first_time false n).
  { destruct (first_time n) eqn:Ht; [reflexivity|].
    symmetry. apply set_first_time_false_id. exact Ht. }
  rewrite Hn. simpl fmap. simpl goal_selector.
  destruct (decideGoal (fmap n) (goal_selector n)) as [tr [[goal sel']|f]];
    reflexivity.
Qed.

(** Every tick goes one of the four ways. *)
Lemma tick_ways (n : Node) (a : Tick) :
  mapReceived a = false
  \/ (mapReceived a = true /\ exploration_finished n = true)
  \/ (mapReceived a = true /\ exploration_finished n = false
      /\ refreshPose a = false)
  \/ (mapReceived a = true /\ exploration_finished n = false
      /\ refreshPose a = true /\ replan a = false /\ first_time n = false)
  \/ (mapReceived a = true /\ exploration_finished n = false
      /\ refreshPose a = true /\ replan a || first_time n = true).
Proof.
  destruct (mapReceived a), (exploration_finished n), (refreshPose a),
    (replan a), (first_time n); simpl; intuition congruence.
Qed.

(** *** What a tick leaves alone *)

(** No statement of the loop assigns [exploration_finished] or [fmap];
    only [finish()] stops the loop, and it runs only when
    [exploration_finished] holds; [first_time] is never set back. *)
Lemma tick_frame (n n' : Node) (a : Tick) :
  outcome (tick n a) = Done n' ->
  exploration_finished n' = exploration_finished n
  /\ fmap n' = fmap n
  /\ (exploration_finished n = false -> ok n' = ok n)
  /\ (first_time n = false -> first_time n' = false).
Proof.
  destruct (tick_ways n a)
    as [Hm|[[Hm Hf]|[[Hm [Hf Hp]]|[[Hm [Hf [Hp [Hr Ht]]]]|[Hm [Hf [Hp Hs]]]]]]].
  - rewrite (tick_no_map n a Hm). simpl. intros [= <-]. auto.
  - rewrite (tick_finished n a Hm Hf). simpl. intros [= <-]. simpl.
    repeat split; auto. congruence.
  - rewrite (tick_pose_failed n a Hm Hf Hp). simpl. intros [= <-]. auto.
  - rewrite (tick_keep_goal n a Hm Hf Hp Hr Ht). simpl. intros [= <-]. auto.
  - rewrite (tick_scan n a Hm Hf Hp Hs).
    destruct (decideGoal (fmap n) (goal_selector n)) as [tr [[goal sel']|f]];
      simpl; [intros [= <-]; simpl; auto | discriminate].
Qed.

Lemma tick_exploration_finished (n n' : Node) (a : Tick) :
  outcome (tick n a) = Done n' ->
  exploration_finished n' = exploration_finished n.
Proof. intros H. apply (tick_frame n a H). Qed.

Lemma tick_fmap (n n' : Node) (a : Tick) :
  outcome (tick n a) = Done n' ->
  fmap n' = fmap n.
Proof. intros H. apply (tick_frame n a H). Qed.

Lemma tick_ok (n n' : Node) (a : Tick) :
  exploration_finished n = false ->
  outcome (tick n a) = Done n' ->
  ok n' = ok n.
Proof. intros Hf H. apply (tick_frame n a H). exact Hf. Qed.

Lemma tick_first_time_stays_false (n n' : Node) (a : Tick) :
  first_time n = false ->
  outcome (tick n a) = Done n' ->
  first_time n' = false.
Proof. intros Ht H. apply (tick_frame n a H). exact Ht. Qed.

(** *** Sequencing *)

Lemma outcome_bind_Done {A B : Type} (m : M A) (k : A -> M B) a :
  outcome m = Done a -> outcome (bind m k) = outcome (k a).
Proof.
  destruct m as [tr r]. simpl. intros ->. unfold bind, outcome.
  destruct (k a); reflexivity.
Qed.

Lemma trace_bind_Done {A B : Type} (m : M A) (k : A -> M B) a :
  outcome m = Done a -> trace (bind m k) = trace m ++ trace (k a).
Proof.
  destruct m as [tr r]. simpl. intros ->. unfold bind, trace.
  destruct (k a); reflexivity.
Qed.

Lemma outcome_bind_inv {A B : Type} (m : M A) (k : A -> M B) b :
  outcome (bind m k) = Done b ->
  exists a, outcome m = Done a /\ outcome (k a) = Done b.
Proof.
  destruct m as [tr [a|f]]; simpl.
  - intros H. exists a. split; [reflexivity|].
    rewrite <- H. unfold bind, outcome. destruct (k a); reflexivity.
  - discriminate.
Qed.

(** *** Iterations *)

Lemma deliver_flags (maps : list FrontiersMap) (n : Node) :
  goal_selector (fold_left getFrontiers maps n) = goal_selector n
  /\ first_time (fold_left getFrontiers maps n) = first_time n
  /\ exploration_finished (fold_left getFrontiers maps n)
     = exploration_finished n
  /\ ok (fold_left getFrontiers maps n) = ok n.
Proof.
  revert n. induction maps as [|m maps IH]; intros n; simpl.
  - repeat split.
  - destruct (IH (getFrontiers n m)) as [H1 [H2 [H3 H4]]].
    rewrite H1, H2, H3, H4. repeat split.
Qed.

Lemma last_cons_default {A : Type} (l : list A) (x d d' : A) :
  last (x :: l) d = last (x :: l) d'.
Proof.
  revert x. induction l as [|y l IH]; intros x; [reflexivity|].
  change (last (y :: l) d = last (y :: l) d'). apply IH.
Qed.

(** The map callback alone decides the frontier map after an iteration:
    the last delivered map, or the old one when none was delivered. *)
Lemma deliver_fmap (maps : list FrontiersMap) (n : Node) :
  fmap (fold_left getFrontiers maps n) = last maps (fmap n).
Proof.
  revert n. induction maps as [|m maps IH]; intros n; [reflexivity|].
  simpl fold_left. rewrite IH. simpl fmap.
  destruct maps as [|m' maps]; [reflexivity|].
  change (last (m' :: maps) m = last (m' :: maps) (fmap n)).
  apply last_cons_default.
Qed.

Lemma iteration_Done (n n1 : Node) (a : Tick) :
  outcome (tick n a) = Done n1 ->
  iteration n a =
    (trace (tick n a) ++ [E_spinOnce; E_sleep],
     Done (fold_left getFrontiers (incoming a) n1)).
Proof.
  unfold iteration. destruct (tick n a) as [tr r]. simpl. intros ->.
  reflexivity.
Qed.

Lemma iteration_outcome_inv (n n2 : Node) (a : Tick) :
  outcome (iteration n a) = Done n2 ->
  exists n1, outcome (tick n a) = Done n1
             /\ n2 = fold_left getFrontiers (incoming a) n1.
Proof.
  destruct (outcome (tick n a)) as [n1|f] eqn:Ht.
  - rewrite (iteration_Done n a Ht). simpl. intros [= <-].
    exists n1. split; reflexivity.
  - unfold iteration. destruct (tick n a) as [tr r]. simpl in Ht. subst r.
    simpl. discriminate.
Qed.

Lemma iteration_first_time_stays_false (n n' : Node) (a : Tick) :
  first_time n = false ->
  outcome (iteration n a) = Done n' ->
  first_time n' = false.
Proof.
  intros Ht H. apply iteration_outcome_inv in H. destruct H as [n1 [H1 ->]].
  destruct (deliver_flags (incoming a) n1) as [_ [-> _]].
  eapply tick_first_time_stays_false; eassumption.
Qed.

Lemma iteration_exploration_finished (n n' : Node) (a : Tick) :
  outcome (iteration n a) = Done n' ->
  exploration_finished n' = exploration_finished n.
Proof.
  intros H. apply iteration_outcome_inv in H. destruct H as [n1 [H1 ->]].
  destruct (deliver_flags (incoming a) n1) as [_ [_ [-> _]]].
  eapply tick_exploration_finished; eassumption.
Qed.

(** *** Runs of the loop *)

Lemma loop_first_time_stays_false (ticks : list Tick) (n n' : Node) :
  first_time n = false ->
  outcome (loop n ticks) = Done n' ->
  first_time n' = false.
Proof.
  revert n. induction ticks as [|a rest IH]; intros n Ht; simpl.
  - intros [= <-]. exact Ht.
  - destruct (ok n).
    + intros H. apply outcome_bind_inv in H. destruct H as [n1 [H1 H2]].
      apply (IH n1); [|exact H2].
      eapply iteration_first_time_stays_false; eassumption.
    + intros [= <-]. exact Ht.
Qed.

(** The loop never reaches [finish()] by itself: no run that starts with
    [exploration_finished] false ever sets it. *)
Lemma loop_exploration_finished (ticks : list Tick) (n n' : Node) :
  outcome (loop n ticks) = Done n' ->
  exploration_finished n' = exploration_finished n.
Proof.
  revert n. induction ticks as [|a rest IH]; intros n; simpl.
  - intros [= <-]. reflexivity.
  - destruct (ok n).
    + intros H. apply outcome_bind_inv in H. destruct H as [n1 [H1 H2]].
      rewrite (IH n1 H2). eapply iteration_exploration_finished; eassumption.
    + intros [= <-]. reflexivity.
Qed.

(** *** The goal scan *)

Lemma scan_Declined_app sel goal pre sel1 goal1 (fs : FrontiersMap) :
  Declined sel goal pre sel1 goal1 ->
  scan sel (pre ++ fs) goal =
    (map (fun f => E_select f false) pre ++ trace (scan sel1 fs goal1),
     outcome (scan sel1 fs goal1)).
Proof.
  induction 1 as [sel goal | sel goal f goal1 sel1 pre sel' goal' Hf _ IH].
  - simpl. destruct (scan sel fs goal); reflexivity.
  - simpl. rewrite Hf, IH. reflexivity.
Qed.

Lemma scan_events sel (fs : FrontiersMap) goal :
  forallb from_decideGoal (trace (scan sel fs goal)) = true.
Proof.
  revert sel goal. induction fs as [|f fs IH]; intros sel goal; simpl.
  - reflexivity.
  - destruct (goalSelector_decideGoal sel f goal) as [[accepted goal'] sel'].
    destruct accepted; simpl; [reflexivity|].
    specialize (IH sel' goal'). unfold bind.
    destruct (scan sel' fs goal') as [tr [r|flt]]; simpl in *; exact IH.
Qed.

Lemma decideGoal_events (fm : FrontiersMap) (p : option Selector) :
  forallb from_decideGoal (trace (decideGoal fm p)) = true.
Proof.
  unfold decideGoal. destruct p as [sel|]; simpl; [|reflexivity].
  pose proof (scan_events sel fm default_pose) as H.
  destruct (scan sel fm default_pose) as [tr [[[f goal] sel']|flt]];
    simpl in *; [|exact H].
  rewrite forallb_app, H. reflexivity.
Qed.

Lemma selected_app (tr1 tr2 : list Event) :
  selected (tr1 ++ tr2) = selected tr1 ++ selected tr2.
Proof.
  induction tr1 as [|e tr1 IH]; [reflexivity|].
  destruct e; simpl; rewrite IH; reflexivity.
Qed.

Lemma selected_declined (fs : FrontiersMap) :
  selected (map (fun f => E_select f false) fs) = fs.
Proof. induction fs as [|f fs IH]; simpl; [|rewrite IH]; reflexivity. Qed.

(** C6.  The scan hands the frontiers to the goal selector in the order of
    the frontier map.  When the selector declines the frontiers of [pre]
    one after the other and then accepts [f], [decideGoal()] returns the
    pose that this call on [f] produced, publishes [f]'s points and that
    pose, and has called the selector on [pre] and [f] and on nothing
    else: no frontier of [post] is looked at. *)
Theorem decideGoal_commits_first_accepted
  sel pre sel1 goal1 f goal sel2 (post : FrontiersMap) :
  Declined sel default_pose pre sel1 goal1 ->
  goalSelector_decideGoal sel1 f goal1 = (true, goal, sel2) ->
  decideGoal (pre ++ f :: post) (Some sel) =
    (E_decideGoal :: map (fun x => E_select x false) pre
       ++ [E_select f true; E_publish_f_goal (points f); E_publish_goal goal],
     Done (goal, sel2))
  /\ selected (trace (decideGoal (pre ++ f :: post) (Some sel))) = pre ++ [f].
Proof.
  intros Hpre Hf.
  assert (E : decideGoal (pre ++ f :: post) (Some sel) =
    (E_decideGoal :: map (fun x => E_select x false) pre
       ++ [E_select f true; E_publish_f_goal (points f); E_publish_goal goal],
     Done (goal, sel2))).
  { unfold decideGoal. rewrite (scan_Declined_app (f :: post) Hpre).
    simpl scan. rewrite Hf. simpl. rewrite <- app_assoc. reflexivity. }
  split; [exact E|].
  rewrite E. unfold trace. simpl. rewrite selected_app, selected_declined.
  reflexivity.
Qed.

(** C8.  A second scan over the same frontier map, started with the goal
    selector in the state in which the first scan was started, issues the
    same calls and returns the same goal: the scan keeps nothing of its
    own between two calls (its pose variable is a fresh local). *)
Theorem decideGoal_twice_same_goal
  (fm : FrontiersMap) sel tr1 goal1 sel1 :
  decideGoal fm (Some sel) = (tr1, Done (goal1, sel1)) ->
  sel1 = sel ->
  decideGoal_twice fm sel = (tr1 ++ tr1, Done (goal1, goal1)).
Proof.
  intros H1 Hsel. subst sel1. unfold decideGoal_twice, bind.
  rewrite H1. simpl. rewrite H1. simpl. rewrite app_nil_r. reflexivity.
Qed.

(** A selector that never changes its own state is left unchanged by a
    whole scan, so for such a selector two scans in a row always agree. *)
Lemma scan_keeps_stateless_selector sel (fs : FrontiersMap) goal f goal' sel' :
  (forall s x g, snd (goalSelector_decideGoal s x g) = s) ->
  outcome (scan sel fs goal) = Done (f, goal', sel') ->
  sel' = sel.
Proof.
  intros Hpure. revert sel goal.
  induction fs as [|x fs IH]; intros sel goal; simpl; [discriminate|].
  pose proof (Hpure sel x goal) as Hs.
  destruct (goalSelector_decideGoal sel x goal) as [[accepted g1] s1].
  simpl in Hs. subst s1. destruct accepted; simpl.
  - intros [= _ _ <-]. reflexivity.
  - intros H. apply (IH sel g1). rewrite <- H. unfold bind, outcome.
    destruct (scan sel fs g1) as [tr [r|flt]]; reflexivity.
Qed.

(** C1.  When the goal selector declines every frontier of the frontier
    map (the empty map included), a tick that reaches the scan calls the
    selector on each frontier and then reads past the end of the map:
    the tick has no defined result, so it neither ends without a goal nor
    leaves the loop in place for a retry. *)
Theorem tick_all_declined_is_undefined (n : Node) (a : Tick) sel sel' goal' :
  goal_selector n = Some sel ->
  Declined sel default_pose (fmap n) sel' goal' ->
  mapReceived a = true ->
  exploration_finished n = false ->
  refreshPose a = true ->
  replan a || first_time n = true ->
  tick n a =
    ([E_mapReceived true; E_setMapReceived; E_refreshPose true;
      E_replan (replan a); E_printStatus; E_decideGoal]
       ++ map (fun f => E_select f false) (fmap n),
     Undefined PastTheEnd).
Proof.
  intros Hsel Hdecl Hm Hf Hp Hs.
  rewrite (tick_scan n a Hm Hf Hp Hs). unfold decideGoal. rewrite Hsel.
  pose proof (scan_Declined_app [] Hdecl) as H. rewrite app_nil_r in H.
  rewrite H. simpl. rewrite app_nil_r. reflexivity.
Qed.

(** *** Counting calls in a trace *)

Lemma count_app (p : Event -> bool) (tr1 tr2 : list Event) :
  count p (tr1 ++ tr2) = count p tr1 + count p tr2.
Proof. unfold count. rewrite filter_app, length_app. reflexivity. Qed.

Lemma count_outside_decideGoal (p : Event -> bool) (tr : list Event) :
  (forall e, from_decideGoal e = true -> p e = false) ->
  forallb from_decideGoal tr = true ->
  count p tr = 0.
Proof.
  intros Hp. induction tr as [|e tr IH]; simpl; [reflexivity|].
  intros H. apply andb_true_iff in H. destruct H as [He Htr].
  unfold count in *. simpl. rewrite (Hp e He). apply IH. exact Htr.
Qed.

Lemma count_zero_existsb (p : Event -> bool) (tr : list Event) :
  count p tr = 0 <-> existsb p tr = false.
Proof.
  unfold count. induction tr as [|e tr IH]; simpl; [tauto|].
  destruct (p e); simpl; [split; discriminate | exact IH].
Qed.

Lemma is_goTo_outside_decideGoal (e : Event) :
  from_decideGoal e = true -> is_goTo e = false.
Proof. destruct e; simpl; congruence. Qed.

Lemma is_refreshPose_outside_decideGoal (e : Event) :
  from_decideGoal e = true -> is_refreshPose e = false.
Proof. destruct e; simpl; congruence. Qed.

Lemma is_cancelGoal_outside_decideGoal (e : Event) :
  from_decideGoal e = true -> is_cancelGoal e = false.
Proof. destruct e; simpl; congruence. Qed.

(** *** Ticks with a failed pose refresh *)

(** C7.  On a tick of the exploring loop on which [robot.refreshPose()]
    fails, the tick ends normally with the node exactly as it found it
    (frontier map, goal selector, [first_time], [exploration_finished],
    [ros::ok()]), and it calls neither [robot.goTo] nor
    [robot.cancelGoal], so the goal the robot holds is the one it held. *)
Theorem pose_failure_tick_changes_nothing (n : Node) (a : Tick) :
  exploration_finished n = false ->
  mapReceived a = true ->
  refreshPose a = false ->
  outcome (tick n a) = Done n
  /\ existsb is_goTo (trace (tick n a)) = false
  /\ existsb is_cancelGoal (trace (tick n a)) = false.
Proof.
  intros Hf Hm Hp. rewrite (tick_pose_failed n a Hm Hf Hp).
  repeat split.
Qed.

(** With the callback delivery that ends the iteration, the frontier map
    changes only if the map server delivered a new one. *)
Lemma iteration_pose_failed (n : Node) (a : Tick) :
  exploration_finished n = false ->
  mapReceived a = true ->
  refreshPose a = false ->
  exists n', outcome (iteration n a) = Done n'
    /\ fmap n' = last (incoming a) (fmap n)
    /\ goal_selector n' = goal_selector n
    /\ first_time n' = first_time n
    /\ exploration_finished n' = exploration_finished n
    /\ ok n' = ok n.
Proof.
  intros Hf Hm Hp.
  assert (Ht : outcome (tick n a) = Done n)
    by (rewrite (tick_pose_failed n a Hm Hf Hp); reflexivity).
  rewrite (iteration_Done n a Ht). simpl.
  eexists. split; [reflexivity|].
  destruct (deliver_flags (incoming a) n) as [H1 [H2 [H3 H4]]].
  rewrite deliver_fmap. auto.
Qed.

(** *** When the pose is refreshed *)

(** C2, as the code has it.  A tick calls [robot.refreshPose()] once when
    the map server reports a received map and exploration is not finished,
    and not at all otherwise: the refresh sits behind the test of
    [mapServer.mapReceived()]. *)
Theorem tick_refreshes_pose_behind_map_test (n : Node) (a : Tick) :
  count is_refreshPose (trace (tick n a))
  = if mapReceived a && negb (exploration_finished n) then 1 else 0.
Proof.
  destruct (tick_ways n a)
    as [H|[[H1 H2]|[[H1 [H2 H3]]|[[H1 [H2 [H3 [H4 H5]]]]|[H1 [H2 [H3 H4]]]]]]].
  - rewrite (tick_no_map n a H), H. reflexivity.
  - rewrite (tick_finished n a H1 H2), H1, H2.
    destruct (isMoving a); reflexivity.
  - rewrite (tick_pose_failed n a H1 H2 H3), H1, H2. reflexivity.
  - rewrite (tick_keep_goal n a H1 H2 H3 H4 H5), H1, H2. reflexivity.
  - rewrite (tick_scan n a H1 H2 H3 H4), H1, H2.
    pose proof (decideGoal_events (fmap n) (goal_selector n)) as Hev.
    destruct (decideGoal (fmap n) (goal_selector n)) as [tr [[goal sel']|f]];
      unfold trace in *; simpl fst in *;
      change (?x :: ?y :: ?z :: ?u :: ?v :: ?w) with ([x; y; z; u; v] ++ w).
    + rewrite !count_app.
      rewrite (@count_outside_decideGoal is_refreshPose tr is_refreshPose_outside_decideGoal Hev).
      reflexivity.
    + rewrite count_app.
      rewrite (@count_outside_decideGoal is_refreshPose tr is_refreshPose_outside_decideGoal Hev).
      reflexivity.
Qed.

(** *** Start-up *)

Lemma add_causes_Done cause (conditions : list string) :
  outcome (add_causes cause conditions) = Done tt.
Proof.
  induction conditions as [|c rest IH]; [reflexivity|].
  simpl. unfold bind, outcome in *. simpl.
  destruct (add_causes cause rest) as [tr r]. simpl in IH. subst r.
  reflexivity.
Qed.

Lemma setup_goal_selector_Done (type : option string) :
  exists p, outcome (setup_goal_selector type) = Done p.
Proof.
  destruct type as [name|]; simpl; [|eexists; reflexivity].
  destruct (String.eqb name "mid_point"); eexists; reflexivity.
Qed.

(** Start-up always reaches the main loop. *)
Lemma startup_Done (cfg : Config) :
  exists p, outcome (setup_goal_selector (goal_selector_type cfg)) = Done p
            /\ outcome (startup cfg) = Done (start p).
Proof.
  destruct (setup_goal_selector_Done (goal_selector_type cfg)) as [p Hp].
  exists p. split; [exact Hp|]. unfold startup.
  rewrite (outcome_bind_Done _ _ (add_causes_Done _ _)).
  rewrite (outcome_bind_Done _ _ Hp). reflexivity.
Qed.

(** The flag [exploration_finished] is still false after any run of the
    node, so the loop itself never reaches [finish()]. *)
Lemma spin_never_finished (cfg : Config) (ticks : list Tick) (n : Node) :
  outcome (spin cfg ticks) = Done n ->
  exploration_finished n = false.
Proof.
  destruct (startup_Done cfg) as [p [_ Hstart]]. unfold spin.
  rewrite (outcome_bind_Done _ _ Hstart). intros H.
  rewrite (loop_exploration_finished ticks _ H). reflexivity.
Qed.

(** *** Stalled ticks *)

Lemma tick_stalled (n : Node) (a : Tick) :
  stalled a = true ->
  exploration_finished n = false ->
  outcome (tick n a) = Done n
  /\ existsb is_goTo (trace (tick n a)) = false.
Proof.
  unfold stalled. intros Hs Hf.
  destruct (mapReceived a) eqn:Hm.
  - destruct (refreshPose a) eqn:Hp; [discriminate|].
    rewrite (tick_pose_failed n a Hm Hf Hp). split; reflexivity.
  - rewrite (tick_no_map n a Hm). split; reflexivity.
Qed.

Lemma existsb_app_false (p : Event -> bool) (tr1 tr2 : list Event) :
  existsb p tr1 = false -> existsb p tr2 = false ->
  existsb p (tr1 ++ tr2) = false.
Proof. intros H1 H2. rewrite existsb_app, H1, H2. reflexivity. Qed.

Lemma loop_stalled (ticks : list Tick) (n : Node) :
  forallb stalled ticks = true ->
  exploration_finished n = false ->
  ok n = true ->
  exists n', outcome (loop n ticks) = Done n'
    /\ first_time n' = first_time n
    /\ goal_selector n' = goal_selector n
    /\ exploration_finished n' = false
    /\ ok n' = true
    /\ existsb is_goTo (trace (loop n ticks)) = false.
Proof.
  revert n. induction ticks as [|a rest IH]; intros n Hall Hf Hok.
  - exists n. simpl. repeat split; assumption.
  - simpl in Hall. apply andb_true_iff in Hall. destruct Hall as [Ha Hrest].
    destruct (tick_stalled n a Ha Hf) as [Ht Hg].
    pose proof (iteration_Done n a Ht) as Hi.
    destruct (deliver_flags (incoming a) n) as [D1 [D2 [D3 D4]]].
    destruct (IH (fold_left getFrontiers (incoming a) n) Hrest)
      as [n' [L1 [L2 [L3 [L4 [L5 L6]]]]]]; [congruence | congruence |].
    exists n'. simpl loop. rewrite Hok.
    assert (Ho : outcome (iteration n a)
                 = Done (fold_left getFrontiers (incoming a) n))
      by (rewrite Hi; reflexivity).
    rewrite (outcome_bind_Done _ _ Ho), (trace_bind_Done _ _ Ho).
    repeat split; try congruence.
    apply existsb_app_false; [|exact L6].
    rewrite Hi. unfold trace at 1. simpl fst.
    apply existsb_app_false; [exact Hg | reflexivity].
Qed.

(** *** The bootstrap scan *)

Lemma tick_first_time_scans (n : Node) (a : Tick) :
  first_time n = true ->
  exploration_finished n = false ->
  mapReceived a = true ->
  refreshPose a = true ->
  (exists rest,
     trace (tick n a) =
       [E_mapReceived true; E_setMapReceived; E_refreshPose true;
        E_replan (replan a); E_printStatus]
         ++ trace (decideGoal (fmap n) (goal_selector n)) ++ rest)
  /\ In E_decideGoal (trace (tick n a)).
Proof.
  intros Ht Hf Hm Hp.
  assert (Hs : replan a || first_time n = true)
    by (rewrite Ht; apply orb_true_r).
  assert (E : exists rest,
     trace (tick n a) =
       [E_mapReceived true; E_setMapReceived; E_refreshPose true;
        E_replan (replan a); E_printStatus]
         ++ trace (decideGoal (fmap n) (goal_selector n)) ++ rest).
  { rewrite (tick_scan n a Hm Hf Hp Hs).
    destruct (decideGoal (fmap n) (goal_selector n)) as [tr [[goal sel']|f]].
    - exists [E_goTo goal]. reflexivity.
    - exists []. unfold trace. simpl fst. rewrite app_nil_r. reflexivity. }
  split; [exact E|].
  destruct E as [rest ->]. apply in_or_app. right. apply in_or_app. left.
  unfold decideGoal, bind, emit, trace. simpl.
  destruct (goal_selector n) as [sel|]; simpl; [|left; reflexivity].
  destruct (scan sel (fmap n) default_pose) as [tr [[[f g] s']|flt]];
    left; reflexivity.
Qed.

(** C5.  From the start of the node, after any number of ticks on which
    no map was reported or the pose refresh failed, the loop is still
    running, and the first tick on which the pose refresh succeeds runs
    [decideGoal()] on the node's frontier map and goal selector, whatever
    [replaner.replan()] answers on that tick. *)
Theorem bootstrap_tick_scans (cfg : Config) (before : list Tick) (a : Tick) :
  forallb stalled before = true ->
  mapReceived a = true ->
  refreshPose a = true ->
  exists n,
    outcome (spin cfg before) = Done n
    /\ ok n = true
    /\ (exists rest,
          trace (tick n a) =
            [E_mapReceived true; E_setMapReceived; E_refreshPose true;
             E_replan (replan a); E_printStatus]
              ++ trace (decideGoal (fmap n) (goal_selector n)) ++ rest)
    /\ In E_decideGoal (trace (tick n a)).
Proof.
  intros Hall Hm Hp.
  destruct (startup_Done cfg) as [p [_ Hstart]].
  destruct (@loop_stalled before (start p) Hall eq_refl eq_refl)
    as [n [L1 [L2 [_ [L4 [L5 _]]]]]].
  exists n. unfold spin. rewrite (outcome_bind_Done _ _ Hstart).
  split; [exact L1|]. split; [exact L5|].
  apply tick_first_time_scans; auto.
Qed.

(** *** Dispatching ticks *)

(** A tick hands a goal to the robot only on the scanning way. *)
Lemma tick_dispatch_inv (n : Node) (a : Tick) :
  dispatches (trace (tick n a)) ->
  mapReceived a = true /\ exploration_finished n = false
  /\ refreshPose a = true /\ replan a || first_time n = true.
Proof.
  unfold dispatches.
  destruct (tick_ways n a)
    as [H|[[H1 H2]|[[H1 [H2 H3]]|[[H1 [H2 [H3 [H4 H5]]]]|[H1 [H2 [H3 H4]]]]]]].
  - rewrite (tick_no_map n a H). discriminate.
  - rewrite (tick_finished n a H1 H2). destruct (isMoving a); discriminate.
  - rewrite (tick_pose_failed n a H1 H2 H3). discriminate.
  - rewrite (tick_keep_goal n a H1 H2 H3 H4 H5). discriminate.
  - auto.
Qed.

Lemma tick_scan_clears_first_time (n n' : Node) (a : Tick) :
  mapReceived a = true ->
  exploration_finished n = false ->
  refreshPose a = true ->
  replan a || first_time n = true ->
  outcome (tick n a) = Done n' ->
  first_time n' = false.
Proof.
  intros Hm Hf Hp Hs. rewrite (tick_scan n a Hm Hf Hp Hs).
  destruct (decideGoal (fmap n) (goal_selector n)) as [tr [[goal sel']|f]];
    simpl; [intros [= <-]; reflexivity | discriminate].
Qed.

(** C9.  While [first_time] is set, any run of ticks on which no map is
    reported or the pose refresh fails ends normally with [first_time]
    still set and the loop still running, and the tick after it scans as
    soon as a map is reported and the pose refresh succeeds, whatever the
    replanning verdict.  A tick clears [first_time] only if a map was
    reported, the pose refresh succeeded and [decideGoal()] was entered. *)
Theorem first_time_cleared_only_by_scanning_tick (n : Node) (ticks : list Tick) :
  first_time n = true ->
  exploration_finished n = false ->
  ok n = true ->
  forallb stalled ticks = true ->
  (exists n',
     outcome (loop n ticks) = Done n'
     /\ first_time n' = true
     /\ ok n' = true
     /\ forall a, mapReceived a = true -> refreshPose a = true ->
                  In E_decideGoal (trace (tick n' a)))
  /\ (forall a n',
        outcome (tick n a) = Done n' ->
        first_time n' = false ->
        mapReceived a = true /\ refreshPose a = true
        /\ In E_decideGoal (trace (tick n a))).
Proof.
  intros Ht Hf Hok Hall. split.
  - destruct (@loop_stalled ticks n Hall Hf Hok)
      as [n' [L1 [L2 [_ [L4 [L5 _]]]]]].
    exists n'. repeat split; try congruence.
    intros a Hm Hp. apply tick_first_time_scans; congruence.
  - intros a n' Hdone Hcleared.
    destruct (mapReceived a) eqn:Hm.
    + destruct (refreshPose a) eqn:Hp.
      * repeat split. apply tick_first_time_scans; assumption.
      * rewrite (tick_pose_failed n a Hm Hf Hp) in Hdone. simpl in Hdone.
        congruence.
    + rewrite (tick_no_map n a Hm) in Hdone. simpl in Hdone. congruence.
Qed.

(** C10.  Once some iteration has handed a goal to [robot.goTo], any
    later tick of the run that hands over a goal does so with
    [replaner.replan()] answering true on that very tick. *)
Theorem later_dispatch_needs_replan
  (n n1 n2 : Node) (a b : Tick) (between : list Tick) :
  dispatches (trace (iteration n a)) ->
  outcome (iteration n a) = Done n1 ->
  outcome (loop n1 between) = Done n2 ->
  dispatches (trace (tick n2 b)) ->
  replan b = true.
Proof.
  intros Hd1 Hi Hl Hd2.
  apply iteration_outcome_inv in Hi. destruct Hi as [m [Hm ->]].
  rewrite (iteration_Done n a Hm) in Hd1. unfold dispatches, trace in Hd1.
  simpl fst in Hd1. rewrite existsb_app in Hd1. simpl in Hd1.
  rewrite orb_false_r in Hd1.
  destruct (tick_dispatch_inv n a Hd1) as [A1 [A2 [A3 A4]]].
  pose proof (tick_scan_clears_first_time n a A1 A2 A3 A4 Hm) as Hft.
  assert (Hft1 : first_time (fold_left getFrontiers (incoming a) m) = false).
  { destruct (deliver_flags (incoming a) m) as [_ [-> _]]. exact Hft. }
  pose proof (loop_first_time_stays_false between _ Hft1 Hl) as Hft2.
  destruct (tick_dispatch_inv n2 b Hd2) as [_ [_ [_ B4]]].
  rewrite Hft2, orb_false_r in B4. exact B4.
Qed.

(** *** The finished node *)

Lemma loop_stopped (ticks : list Tick) (n : Node) :
  ok n = false -> loop n ticks = ([], Done n).
Proof. intros H. destruct ticks; simpl; [|rewrite H]; reflexivity. Qed.

(** C4.  From a node on which [exploration_finished] holds, however the
    run goes on: it ends normally, no goal is handed to [robot.goTo], and
    [robot.cancelGoal] is called once if the first tick that reports a map
    (the tick that runs [finish()]) finds the robot moving, and not at all
    otherwise; after that tick [ros::ok()] is false and the loop is left. *)
Theorem finished_is_terminal (ticks : list Tick) (n : Node) :
  exploration_finished n = true ->
  ok n = true ->
  exists n',
    outcome (loop n ticks) = Done n'
    /\ existsb is_goTo (trace (loop n ticks)) = false
    /\ count is_cancelGoal (trace (loop n ticks))
       = match find mapReceived ticks with
         | Some a => if isMoving a then 1 else 0
         | None => 0
         end
    /\ (ok n' = false <-> find mapReceived ticks <> None).
Proof.
  revert n. induction ticks as [|a rest IH]; intros n Hf Hok.
  - exists n. simpl. repeat split; try reflexivity; congruence.
  - simpl loop. rewrite Hok. simpl find.
    destruct (mapReceived a) eqn:Hm.
    + pose proof (tick_finished n a Hm Hf) as Ht.
      assert (Ho : outcome (tick n a) = Done (set_ok false n))
        by (rewrite Ht; reflexivity).
      pose proof (iteration_Done n a Ho) as Hi.
      destruct (deliver_flags (incoming a) (set_ok false n))
        as [_ [_ [_ D4]]].
      simpl in D4.
      rewrite Hi. unfold bind.
      rewrite (loop_stopped rest _ D4). rewrite Ht. unfold trace, outcome.
      simpl fst. simpl snd.
      eexists. split; [reflexivity|].
      destruct (isMoving a); simpl; repeat split; try reflexivity;
        try congruence; intros _; exact D4.
    + pose proof (tick_no_map n a Hm) as Ht.
      assert (Ho : outcome (tick n a) = Done n) by (rewrite Ht; reflexivity).
      pose proof (iteration_Done n a Ho) as Hi.
      destruct (deliver_flags (incoming a) n) as [_ [_ [D3 D4]]].
      destruct (IH (fold_left getFrontiers (incoming a) n))
        as [n' [L1 [L2 [L3 L4]]]]; [congruence | congruence |].
      assert (Ho' : outcome (iteration n a)
                    = Done (fold_left getFrontiers (incoming a) n))
        by (rewrite Hi; reflexivity).
      exists n'.
      rewrite (outcome_bind_Done _ _ Ho'), (trace_bind_Done _ _ Ho').
      split; [exact L1|]. rewrite Hi, Ht. unfold trace at 1 3. simpl fst.
      split; [exact L2|]. split; [|exact L4].
      change ([E_mapReceived false; E_spinOnce; E_sleep]
                ++ trace (loop (fold_left getFrontiers (incoming a) n) rest))
        with (E_mapReceived false :: E_spinOnce :: E_sleep
                :: trace (loop (fold_left getFrontiers (incoming a) n) rest)).
      unfold count in *. simpl. exact L3.
Qed.

(** *** An unknown goal-selector name *)

Lemma outcome_bind_Undefined {A B : Type} (m : M A) (k : A -> M B) f :
  outcome m = Undefined f -> outcome (bind m k) = Undefined f.
Proof. destruct m as [tr r]. simpl. intros ->. reflexivity. Qed.

Lemma trace_bind_prefix {A B : Type} (m : M A) (k : A -> M B) :
  exists tr, trace (bind m k) = trace m ++ tr.
Proof.
  destruct m as [tr0 [x|f]]; unfold bind, trace; simpl.
  - destruct (k x) as [tr1 r]. exists tr1. reflexivity.
  - exists []. rewrite app_nil_r. reflexivity.
Qed.

Lemma tick_trace_head (n : Node) (a : Tick) :
  exists tr, trace (tick n a) = E_mapReceived (mapReceived a) :: tr.
Proof.
  unfold tick.
  exact (trace_bind_prefix (emit (E_mapReceived (mapReceived a))) _).
Qed.

(** C3.  With a goal-selector name other than "mid_point", start-up logs
    the error and goes on: the main loop is reached with [goal_selector]
    still null, its first tick runs, and the first tick on which the pose
    is refreshed calls through the null pointer. *)
Theorem unknown_selector_still_spins
  (cfg : Config) (name : string) (a : Tick) (rest : list Tick) :
  goal_selector_type cfg = Some name ->
  String.eqb name "mid_point" = false ->
  outcome (startup cfg) = Done (start None)
  /\ (exists tr,
        trace (spin cfg (a :: rest)) =
          trace (add_causes (cause_parameters cfg) (replan_conditions cfg))
            ++ E_ROS_ERROR ("String " ++ name
                              ++ " does not name a valid goal selector")
            :: E_mapReceived (mapReceived a) :: tr)
  /\ (mapReceived a = true -> refreshPose a = true ->
      outcome (spin cfg (a :: rest)) = Undefined NullSelector).
Proof.
  intros Hty Hname.
  assert (Hsetup : setup_goal_selector (goal_selector_type cfg) =
            ([E_ROS_ERROR ("String " ++ name
                             ++ " does not name a valid goal selector")],
             Done None)).
  { rewrite Hty. simpl. rewrite Hname. reflexivity. }
  assert (Hstart : startup cfg =
            (trace (add_causes (cause_parameters cfg) (replan_conditions cfg))
               ++ [E_ROS_ERROR ("String " ++ name
                                  ++ " does not name a valid goal selector")],
             Done (start None))).
  { unfold startup. rewrite Hsetup.
    pose proof (add_causes_Done (cause_parameters cfg) (replan_conditions cfg))
      as Hc.
    destruct (add_causes (cause_parameters cfg) (replan_conditions cfg))
      as [tr0 r]. simpl in Hc. subst r. reflexivity. }
  split; [rewrite Hstart; reflexivity|]. split.
  - unfold spin. rewrite Hstart. unfold bind at 1.
    destruct (tick_trace_head (start None) a) as [t1 Ht1].
    destruct (trace_bind_prefix (tick (start None) a)
                (fun n1 => bind (spinOnce n1 a)
                   (fun n2 => bind (emit E_sleep) (fun _ => ret n2))))
      as [t2 Ht2].
    destruct (trace_bind_prefix (iteration (start None) a)
                (fun n1 => loop n1 rest)) as [t3 Ht3].
    change (bind (iteration (start None) a) (fun n1 => loop n1 rest))
      with (loop (start None) (a :: rest)) in Ht3.
    fold (iteration (start None) a) in Ht2.
    rewrite Ht2, Ht1 in Ht3.
    destruct (loop (start None) (a :: rest)) as [tr r]. simpl in Ht3.
    subst tr. unfold trace. simpl fst. exists (t1 ++ t2 ++ t3).
    rewrite <- !app_assoc. reflexivity.
  - intros Hm Hp. unfold spin.
    assert (Ho : outcome (startup cfg) = Done (start None))
      by (rewrite Hstart; reflexivity).
    rewrite (outcome_bind_Done _ _ Ho). simpl loop.
    apply outcome_bind_Undefined. unfold iteration.
    apply outcome_bind_Undefined.
    rewrite (tick_scan (start None) a Hm eq_refl Hp (orb_true_r _)).
    reflexivity.
Qed.

End Properties.

(** ** Concrete runs *)

(** The whole node on a frontier map whose frontiers are all declined:
    the map arrives during the first iteration, the second tick scans. *)
Example spin_all_declined :
  @spin even_only plain_config
    [ ev_tick false false false false [[1; 3]];
      ev_tick true true false false [] ]
  = ([E_mapReceived false; E_spinOnce; E_sleep;
      E_mapReceived true; E_setMapReceived; E_refreshPose true;
      E_replan false; E_printStatus; E_decideGoal;
      ev_select 1 false; ev_select 3 false],
     Undefined PastTheEnd).
Proof. reflexivity. Qed.

(** The same with a map that has no frontier at all. *)
Example spin_empty_frontier_map :
  @spin even_only plain_config
    [ ev_tick false false false false [[]];
      ev_tick true true false false [] ]
  = ([E_mapReceived false; E_spinOnce; E_sleep;
      E_mapReceived true; E_setMapReceived; E_refreshPose true;
      E_replan false; E_printStatus; E_decideGoal],
     Undefined PastTheEnd).
Proof. reflexivity. Qed.

(** A normal start: the first scan accepts frontier 2 and the goal 20 is
    dispatched although no replanning cause fired. *)
Example spin_first_goal :
  @spin even_only plain_config
    [ ev_tick false false false false [[1; 2; 3]];
      ev_tick true true false false [] ]
  = ([E_mapReceived false; E_spinOnce; E_sleep;
      E_mapReceived true; E_setMapReceived; E_refreshPose true;
      E_replan false; E_printStatus; E_decideGoal;
      ev_select 1 false; ev_select 2 true;
      ev_publish_f_goal 2; ev_publish_goal 20; ev_goTo 20;
      E_spinOnce; E_sleep],
     Done (ev_node [1; 2; 3] (Some tt) false false true)).
Proof. reflexivity. Qed.

(** Without the hypothesis of C8 two scans in a row can disagree: the
    selector that declines its very first call accepts frontier 2 on the
    first scan and frontier 1 on the second. *)
Example second_look_scans_differ :
  @decideGoal_twice second_look [1; 2] 0
  = ([E_decideGoal; @E_select second_look 1 false;
      @E_select second_look 2 true;
      @E_publish_f_goal second_look 2; @E_publish_goal second_look 20;
      E_decideGoal; @E_select second_look 1 true;
      @E_publish_f_goal second_look 1; @E_publish_goal second_look 10],
     Done (20, 10)).
Proof. reflexivity. Qed.

(** *** The claims at concrete inputs *)

(** C1 at the empty frontier map: the bootstrap tick of a correctly
    configured node reads past the end of the map. *)
Lemma empty_frontier_map_tick_is_undefined :
  @tick even_only (ev_start (Some tt)) (ev_tick true true false false [])
  = ([E_mapReceived true; E_setMapReceived; E_refreshPose true;
      E_replan false; E_printStatus; E_decideGoal],
     Undefined PastTheEnd).
Proof.
  apply (@tick_all_declined_is_undefined even_only
           (ev_start (Some tt)) (ev_tick true true false false []) tt tt 0).
  - reflexivity.
  - apply (@Declined_nil even_only tt 0).
  - reflexivity.
  - reflexivity.
  - reflexivity.
  - reflexivity.
Defined.

(** C2 fails as stated: the map arrives during the first iteration, the
    second tick enters Exploring and dispatches a goal, and the third
    tick, on which the map server reports nothing, does not refresh the
    pose although the loop is alive and exploring. *)
Lemma pose_not_refreshed_without_map_report :
  ~ @pose_refreshed_on_every_Exploring_tick even_only.
Proof.
  intros H.
  specialize (H (Some tt)
                [ ev_tick false false false false [[2]];
                  ev_tick true true false false [] ]
                (ev_node [2] (Some tt) false false true)
                (ev_tick false true true false [])
                eq_refl eq_refl eq_refl).
  discriminate H.
Qed.

(** C3 at the name "nearest". *)
Lemma nearest_selector_still_spins :
  outcome (@startup even_only unknown_selector_config) = Done (ev_start None)
  /\ (exists tr,
        trace (@spin even_only unknown_selector_config
                 [ev_tick true true false false []]) =
          [] ++ E_ROS_ERROR "String nearest does not name a valid goal selector"
             :: E_mapReceived true :: tr)
  /\ (true = true -> true = true ->
      outcome (@spin even_only unknown_selector_config
                 [ev_tick true true false false []])
      = Undefined NullSelector).
Proof.
  apply (@unknown_selector_still_spins even_only unknown_selector_config
           "nearest" (ev_tick true true false false []) []).
  - reflexivity.
  - reflexivity.
Defined.

(** C4 at a node marked finished: a tick without a map report, then the
    tick that finishes with the robot moving, then one more answer. *)
Lemma finished_node_cancels_once :
  exists n',
    outcome (@loop even_only (ev_node [2] (Some tt) false true true)
               [ ev_tick false true true true [];
                 ev_tick true true true true [];
                 ev_tick true true true true [] ]) = Done n'
    /\ existsb is_goTo
         (trace (@loop even_only (ev_node [2] (Some tt) false true true)
                   [ ev_tick false true true true [];
                     ev_tick true true true true [];
                     ev_tick true true true true [] ])) = false
    /\ count is_cancelGoal
         (trace (@loop even_only (ev_node [2] (Some tt) false true true)
                   [ ev_tick false true true true [];
                     ev_tick true true true true [];
                     ev_tick true true true true [] ])) = 1
    /\ (ok n' = false <->
        Some (ev_tick true true true true []) <> None).
Proof.
  apply (@finished_is_terminal even_only
           [ ev_tick false true true true [];
             ev_tick true true true true [];
             ev_tick true true true true [] ]
           (ev_node [2] (Some tt) false true true)).
  - reflexivity.
  - reflexivity.
Defined.

(** C5 after a tick without a map report and a tick with a failed pose
    refresh; the replanning verdict on the scanning tick is false. *)
Lemma bootstrap_scan_after_two_stalled_ticks :
  exists n,
    outcome (@spin even_only plain_config
               [ ev_tick false false false false [[1; 2; 3]];
                 ev_tick true false false false [] ]) = Done n
    /\ ok n = true
    /\ (exists rest,
          trace (tick n (ev_tick true true false false [])) =
            [E_mapReceived true; E_setMapReceived; E_refreshPose true;
             E_replan false; E_printStatus]
              ++ trace (decideGoal (fmap n) (goal_selector n)) ++ rest)
    /\ In E_decideGoal (trace (tick n (ev_tick true true false false []))).
Proof.
  apply (@bootstrap_tick_scans even_only plain_config
           [ ev_tick false false false false [[1; 2; 3]];
             ev_tick true false false false [] ]
           (ev_tick true true false false [])).
  - reflexivity.
  - reflexivity.
  - reflexivity.
Defined.

(** C6 on the frontiers 1, 2, 3, of which only 2 is accepted. *)
Lemma scan_of_1_2_3_commits_2 :
  @decideGoal even_only ([1] ++ 2 :: [3]) (Some tt)
  = (E_decideGoal :: map (fun x => ev_select x false) [1]
       ++ [ev_select 2 true; ev_publish_f_goal 2; ev_publish_goal 20],
     Done (20, tt))
  /\ selected (trace (@decideGoal even_only ([1] ++ 2 :: [3]) (Some tt)))
     = [1] ++ [2].
Proof.
  apply (@decideGoal_commits_first_accepted even_only tt [1] tt 0 2 20 tt [3]).
  - apply (@Declined_cons even_only tt 0 1 0 tt [] tt 0).
    + reflexivity.
    + apply (@Declined_nil even_only tt 0).
  - reflexivity.
Defined.

(** C7 at an exploring node that already holds a goal. *)
Lemma failed_refresh_keeps_node :
  outcome (@tick even_only (ev_node [1; 2] (Some tt) false false true)
             (ev_tick true false true true [[4]]))
  = Done (ev_node [1; 2] (Some tt) false false true)
  /\ existsb is_goTo
       (trace (@tick even_only (ev_node [1; 2] (Some tt) false false true)
                 (ev_tick true false true true [[4]]))) = false
  /\ existsb is_cancelGoal
       (trace (@tick even_only (ev_node [1; 2] (Some tt) false false true)
                 (ev_tick true false true true [[4]]))) = false.
Proof.
  apply (@pose_failure_tick_changes_nothing even_only
           (ev_node [1; 2] (Some tt) false false true)
           (ev_tick true false true true [[4]])).
  - reflexivity.
  - reflexivity.
  - reflexivity.
Defined.

(** C8 on the frontiers 1, 2, 3 with the stateless selector. *)
Lemma scan_of_1_2_3_twice :
  @decideGoal_twice even_only [1; 2; 3] tt
  = ([E_decideGoal; ev_select 1 false; ev_select 2 true;
      ev_publish_f_goal 2; ev_publish_goal 20]
       ++ [E_decideGoal; ev_select 1 false; ev_select 2 true;
           ev_publish_f_goal 2; ev_publish_goal 20],
     Done (20, 20)).
Proof.
  apply (@decideGoal_twice_same_goal even_only [1; 2; 3] tt
           [E_decideGoal; ev_select 1 false; ev_select 2 true;
            ev_publish_f_goal 2; ev_publish_goal 20] 20 tt).
  - reflexivity.
  - reflexivity.
Defined.

(** C9 from the start of the loop: a tick without a map report, then two
    ticks with a failed pose refresh. *)
Lemma first_time_survives_three_stalled_ticks :
  (exists n',
     outcome (@loop even_only (ev_start (Some tt))
                [ ev_tick false false true false [[2]];
                  ev_tick true false true false [];
                  ev_tick true false true false [] ]) = Done n'
     /\ first_time n' = true
     /\ ok n' = true
     /\ forall a, mapReceived a = true -> refreshPose a = true ->
                  In E_decideGoal (trace (tick n' a)))
  /\ (forall a n',
        outcome (tick (ev_start (Some tt)) a) = Done n' ->
        first_time n' = false ->
        mapReceived a = true /\ refreshPose a = true
        /\ In E_decideGoal (trace (tick (ev_start (Some tt)) a))).
Proof.
  apply (@first_time_cleared_only_by_scanning_tick even_only
           (ev_start (Some tt))
           [ ev_tick false false true false [[2]];
             ev_tick true false true false [];
             ev_tick true false true false [] ]).
  - reflexivity.
  - reflexivity.
  - reflexivity.
  - reflexivity.
Defined.

(** C10: the bootstrap dispatch with a false replanning verdict, a tick
    with a failed pose refresh, and a second dispatch. *)
Lemma second_dispatch_has_replan_verdict :
  dispatches (trace (@iteration even_only
                       (ev_node [2] (Some tt) true false true)
                       (ev_tick true true false false [[2; 4]])))
  /\ dispatches (trace (@tick even_only
                          (ev_node [2; 4] (Some tt) false false true)
                          (ev_tick true true true false [])))
  /\ replan (ev_tick true true true false []) = true.
Proof.
  split; [reflexivity|]. split; [reflexivity|].
  apply (@later_dispatch_needs_replan even_only
           (ev_node [2] (Some tt) true false true)
           (ev_node [2; 4] (Some tt) false false true)
           (ev_node [2; 4] (Some tt) false false true)
           (ev_tick true true false false [[2; 4]])
           (ev_tick true true true false [])
           [ev_tick true false false false []]).
  - reflexivity.
  - reflexivity.
  - reflexivity.
  - reflexivity.
Defined.

(** ** Further properties of the node *)

Section FurtherProperties.

Context {strategy : Strategy}.

(** *** The scan, read backwards *)

Lemma decideGoal_scan (fm : FrontiersMap) sel :
  decideGoal fm (Some sel) =
    match scan sel fm default_pose with
    | (tr, Done (f, goal, sel')) =>
        (E_decideGoal :: tr
           ++ [E_publish_f_goal (points f); E_publish_goal goal],
         Done (goal, sel'))
    | (tr, Undefined flt) => (E_decideGoal :: tr, Undefined flt)
    end.
Proof.
  unfold decideGoal.
  destruct (scan sel fm default_pose) as [tr [[[f goal] sel']|flt]];
    reflexivity.
Qed.

Lemma scan_cons sel f (fs : FrontiersMap) goal accepted goal1 sel1 :
  goalSelector_decideGoal sel f goal = (accepted, goal1, sel1) ->
  scan sel (f :: fs) goal =
    if accepted then ([E_select f true], Done (f, goal1, sel1))
    else (E_select f false :: trace (scan sel1 fs goal1),
          outcome (scan sel1 fs goal1)).
Proof.
  intros H. simpl. rewrite H. destruct accepted; [reflexivity|].
  unfold bind. simpl. destruct (scan sel1 fs goal1); reflexivity.
Qed.

(** A scan that returns has declined a prefix of the map and accepted the
    frontier after it. *)
Lemma scan_Done_inv (fs : FrontiersMap) sel goal tr f g sel' :
  scan sel fs goal = (tr, Done (f, g, sel')) ->
  exists pre post sel1 goal1,
    fs = pre ++ f :: post
    /\ Declined sel goal pre sel1 goal1
    /\ goalSelector_decideGoal sel1 f goal1 = (true, g, sel')
    /\ tr = map (fun x => E_select x false) pre ++ [E_select f true].
Proof.
  revert sel goal tr. induction fs as [|x fs IH]; intros sel goal tr.
  - simpl. discriminate.
  - destruct (goalSelector_decideGoal sel x goal) as [[accepted g1] s1] eqn:Hx.
    rewrite (@scan_cons sel x fs goal accepted g1 s1 Hx). destruct accepted.
    + intros [= <- <- <- <-]. exists [], fs, sel, goal.
      repeat split; [apply Declined_nil | exact Hx].
    + destruct (scan s1 fs g1) as [tr1 r1] eqn:Hs. simpl.
      intros [= <- ->].
      destruct (IH s1 g1 tr1 Hs) as [pre [post [sel1 [goal1 [E [D [A T]]]]]]].
      exists (x :: pre), post, sel1, goal1. subst fs tr1.
      repeat split; [eapply Declined_cons; eassumption | exact A].
Qed.

(** A scan that does not return has declined the whole map. *)
Lemma scan_Undefined_inv (fs : FrontiersMap) sel goal tr flt :
  scan sel fs goal = (tr, Undefined flt) ->
  flt = PastTheEnd
  /\ (exists sel' goal', Declined sel goal fs sel' goal')
  /\ tr = map (fun x => E_select x false) fs.
Proof.
  revert sel goal tr. induction fs as [|x fs IH]; intros sel goal tr.
  - simpl. intros [= <- <-]. repeat split.
    exists sel, goal. apply Declined_nil.
  - destruct (goalSelector_decideGoal sel x goal) as [[accepted g1] s1] eqn:Hx.
    rewrite (@scan_cons sel x fs goal accepted g1 s1 Hx). destruct accepted; [discriminate|].
    destruct (scan s1 fs g1) as [tr1 r1] eqn:Hs. simpl.
    intros [= <- ->].
    destruct (IH s1 g1 tr1 Hs) as [F [[sel' [goal' D]] T]].
    subst tr1. repeat split; [exact F|].
    exists sel', goal'. eapply Declined_cons; eassumption.
Qed.

(** X1.  Whenever [decideGoal()] returns a goal, the frontier map splits
    into a prefix that the selector declined frontier by frontier, the
    frontier it then accepted, and a rest that was not looked at; the goal
    returned is the pose of that accepting call, and the calls made are
    the ones on the prefix and the accepted frontier and the two marker
    publications. *)
Theorem decideGoal_result_is_first_accepted
  (fm : FrontiersMap) sel tr goal sel' :
  decideGoal fm (Some sel) = (tr, Done (goal, sel')) ->
  exists pre f post sel1 goal1,
    fm = pre ++ f :: post
    /\ Declined sel default_pose pre sel1 goal1
    /\ goalSelector_decideGoal sel1 f goal1 = (true, goal, sel')
    /\ tr = E_decideGoal :: map (fun x => E_select x false) pre
              ++ [E_select f true; E_publish_f_goal (points f);
                  E_publish_goal goal].
Proof.
  rewrite decideGoal_scan.
  destruct (scan sel fm default_pose) as [tr0 [[[f g] s]|flt]] eqn:Hs;
    [|discriminate].
  intros [= <- <- <-].
  destruct (@scan_Done_inv fm sel default_pose tr0 f g s Hs) as [pre [post [sel1 [goal1 [E [D [A T]]]]]]].
  exists pre, f, post, sel1, goal1. subst tr0.
  repeat split; try assumption. rewrite <- app_assoc. reflexivity.
Qed.

(** X2.  With a selector installed, [decideGoal()] fails to return in one
    way only: the selector was called once on every frontier of the map,
    in order, declined each, and the scan then read past the end. *)
Theorem decideGoal_fails_only_past_the_end
  (fm : FrontiersMap) sel tr flt :
  decideGoal fm (Some sel) = (tr, Undefined flt) ->
  flt = PastTheEnd
  /\ (exists sel' goal', Declined sel default_pose fm sel' goal')
  /\ tr = E_decideGoal :: map (fun x => E_select x false) fm.
Proof.
  rewrite decideGoal_scan.
  destruct (scan sel fm default_pose) as [tr0 [[[f g] s]|flt0]] eqn:Hs;
    [discriminate|].
  intros [= <- <-].
  destruct (@scan_Undefined_inv fm sel default_pose tr0 flt0 Hs) as [F [D T]].
  subst tr0. repeat split; assumption.
Qed.

Lemma scan_selected_prefix (fs : FrontiersMap) sel goal :
  exists rest, selected (trace (scan sel fs goal)) ++ rest = fs.
Proof.
  revert sel goal. induction fs as [|x fs IH]; intros sel goal.
  - exists []. reflexivity.
  - destruct (goalSelector_decideGoal sel x goal) as [[accepted g1] s1] eqn:Hx.
    rewrite (@scan_cons sel x fs goal accepted g1 s1 Hx). destruct accepted.
    + exists fs. reflexivity.
    + destruct (IH s1 g1) as [rest Hrest]. exists rest.
      unfold trace at 1. simpl. rewrite Hrest. reflexivity.
Qed.

(** X3.  Whatever the selector does and whether or not the scan returns,
    the frontiers it was called on are an initial segment of the frontier
    map: no frontier is skipped, repeated or taken out of order. *)
Theorem decideGoal_selects_a_prefix (fm : FrontiersMap) (p : option Selector) :
  exists rest, selected (trace (decideGoal fm p)) ++ rest = fm.
Proof.
  destruct p as [sel|].
  - rewrite decideGoal_scan.
    destruct (scan_selected_prefix fm sel default_pose) as [rest Hrest].
    exists rest.
    destruct (scan sel fm default_pose) as [tr [[[f g] s]|flt]];
      unfold trace in *; simpl fst in *; simpl selected.
    + rewrite selected_app. simpl. rewrite app_nil_r. exact Hrest.
    + exact Hrest.
  - exists fm. reflexivity.
Qed.

(** X4.  With a selector that keeps no state, two calls of
    [decideGoal()] in a row on the same frontier map return the same goal
    whenever the first one returns, and leave the selector as it was. *)
Theorem stateless_scans_agree (fm : FrontiersMap) sel tr goal sel' :
  stateless_selector ->
  decideGoal fm (Some sel) = (tr, Done (goal, sel')) ->
  sel' = sel
  /\ decideGoal_twice fm sel = (tr ++ tr, Done (goal, goal)).
Proof.
  intros Hpure H.
  assert (Hsel : sel' = sel).
  { rewrite decideGoal_scan in H.
    destruct (scan sel fm default_pose) as [tr0 [[[f g] s]|flt]] eqn:Hs;
      [|discriminate].
    injection H as _ _ <-.
    apply (@scan_keeps_stateless_selector strategy sel fm default_pose f g s Hpure).
    rewrite Hs. reflexivity. }
  split; [exact Hsel|]. subst sel'.
  unfold decideGoal_twice, bind. rewrite H. simpl. rewrite H. simpl.
  rewrite app_nil_r. reflexivity.
Qed.

(** *** One tick *)

Lemma decideGoal_no_goTo (fm : FrontiersMap) (p : option Selector) :
  existsb is_goTo (trace (decideGoal fm p)) = false.
Proof.
  apply count_zero_existsb.
  apply (@count_outside_decideGoal strategy is_goTo _
           is_goTo_outside_decideGoal).
  apply decideGoal_events.
Qed.

(** A tick that hands over a goal has run a scan that returned it, and
    [robot.goTo] is its last call. *)
Lemma tick_dispatch_shape (n : Node) (a : Tick) :
  dispatches (trace (tick n a)) ->
  exists tr goal sel',
    decideGoal (fmap n) (goal_selector n) = (tr, Done (goal, sel'))
    /\ tick n a =
         ([E_mapReceived true; E_setMapReceived; E_refreshPose true;
           E_replan (replan a); E_printStatus] ++ tr ++ [E_goTo goal],
          Done (set_goal_selector (Some sel') (set_first_time false n))).
Proof.
  intros Hd. destruct (tick_dispatch_inv n a Hd) as [Hm [Hf [Hp Hs]]].
  unfold dispatches in Hd. rewrite (tick_scan n a Hm Hf Hp Hs) in *.
  pose proof (decideGoal_no_goTo (fmap n) (goal_selector n)) as Hno.
  destruct (decideGoal (fmap n) (goal_selector n)) as [tr [[goal sel']|flt]].
  - exists tr, goal, sel'. split; reflexivity.
  - unfold trace in *. simpl in Hd, Hno. rewrite Hno in Hd.
    discriminate Hd.
Qed.

(** X5.  A goal handed to [robot.goTo] always comes from the node's own
    frontier map: on a tick that dispatches, the last four calls are the
    selector call that accepted a frontier of [fmap], the publication of
    that frontier's points, the publication of the goal and [goTo] with
    the same goal; the tick ends normally with [first_time] cleared and
    the selector as the scan left it. *)
Theorem dispatched_goal_comes_from_the_map (n : Node) (a : Tick) :
  dispatches (trace (tick n a)) ->
  exists tr f goal sel',
    In f (fmap n)
    /\ trace (tick n a) =
         tr ++ [E_select f true; E_publish_f_goal (points f);
                E_publish_goal goal; E_goTo goal]
    /\ outcome (tick n a) =
         Done (set_goal_selector (Some sel') (set_first_time false n)).
Proof.
  intros Hd.
  destruct (tick_dispatch_shape n a Hd) as [tr [goal [sel' [Hg Ht]]]].
  destruct (goal_selector n) as [sel|] eqn:Hsel; [|discriminate Hg].
  rewrite decideGoal_scan in Hg.
  destruct (scan sel (fmap n) default_pose) as [tr0 [[[f g] s]|flt]] eqn:Hs;
    [|discriminate Hg].
  injection Hg as <- <- <-.
  destruct (@scan_Done_inv (fmap n) sel default_pose tr0 f g s Hs)
    as [pre [post [sel1 [goal1 [E [_ [_ T]]]]]]].
  exists ([E_mapReceived true; E_setMapReceived; E_refreshPose true;
           E_replan (replan a); E_printStatus; E_decideGoal]
            ++ map (fun x => E_select x false) pre), f, g, s.
  split; [rewrite E; apply in_or_app; right; left; reflexivity|].
  rewrite Ht. subst tr0. unfold trace, outcome. simpl fst. simpl snd.
  split; [|reflexivity].
  simpl. rewrite <- !app_assoc. reflexivity.
Qed.

(** X6.  A tick of the exploring loop that ends normally without handing
    over a goal leaves every variable of the node as it found it: the
    frontier map, the selector, [first_time], [exploration_finished] and
    [ros::ok()]. *)
Theorem tick_without_dispatch_changes_nothing (n n' : Node) (a : Tick) :
  exploration_finished n = false ->
  outcome (tick n a) = Done n' ->
  existsb is_goTo (trace (tick n a)) = false ->
  n' = n.
Proof.
  intros Hf.
  destruct (tick_ways n a)
    as [H|[[H1 H2]|[[H1 [H2 H3]]|[[H1 [H2 [H3 [H4 H5]]]]|[H1 [H2 [H3 H4]]]]]]].
  - rewrite (tick_no_map n a H). simpl. congruence.
  - congruence.
  - rewrite (tick_pose_failed n a H1 H2 H3). simpl. congruence.
  - rewrite (tick_keep_goal n a H1 H2 H3 H4 H5). simpl. congruence.
  - rewrite (tick_scan n a H1 H2 H3 H4).
    destruct (decideGoal (fmap n) (goal_selector n)) as [tr [[goal sel']|flt]];
      simpl; [|discriminate].
    intros _. unfold trace. simpl fst.
    rewrite existsb_app. simpl. rewrite orb_true_r. discriminate.
Qed.

Lemma is_replan_outside_decideGoal (e : Event) :
  from_decideGoal e = true -> is_replan e = false.
Proof. destruct e; simpl; congruence. Qed.

(** X7.  [replaner.replan()] is called once on every tick on which a map
    is reported, exploration is not finished and the pose refresh
    succeeds, the bootstrap tick included (it is the left operand of the
    test with [first_time]); on every other tick it is not called. *)
Theorem replan_called_after_every_pose_refresh (n : Node) (a : Tick) :
  count is_replan (trace (tick n a))
  = if mapReceived a && negb (exploration_finished n) && refreshPose a
    then 1 else 0.
Proof.
  destruct (tick_ways n a)
    as [H|[[H1 H2]|[[H1 [H2 H3]]|[[H1 [H2 [H3 [H4 H5]]]]|[H1 [H2 [H3 H4]]]]]]].
  - rewrite (tick_no_map n a H), H. reflexivity.
  - rewrite (tick_finished n a H1 H2), H1, H2.
    destruct (isMoving a); reflexivity.
  - rewrite (tick_pose_failed n a H1 H2 H3), H1, H2, H3. reflexivity.
  - rewrite (tick_keep_goal n a H1 H2 H3 H4 H5), H1, H2, H3. reflexivity.
  - rewrite (tick_scan n a H1 H2 H3 H4), H1, H2, H3.
    pose proof (decideGoal_events (fmap n) (goal_selector n)) as Hev.
    destruct (decideGoal (fmap n) (goal_selector n)) as [tr [[goal sel']|f]];
      unfold trace in *; simpl fst in *;
      change (?x :: ?y :: ?z :: ?u :: ?v :: ?w) with ([x; y; z; u; v] ++ w).
    + rewrite !count_app.
      rewrite (@count_outside_decideGoal strategy is_replan tr
                 is_replan_outside_decideGoal Hev).
      reflexivity.
    + rewrite count_app.
      rewrite (@count_outside_decideGoal strategy is_replan tr
                 is_replan_outside_decideGoal Hev).
      reflexivity.
Qed.

(** *** Unfolding the loop *)

Lemma iteration_Undefined (n : Node) (a : Tick) flt :
  outcome (tick n a) = Undefined flt ->
  iteration n a = (trace (tick n a), Undefined flt).
Proof.
  unfold iteration. destruct (tick n a) as [tr r]. simpl. intros ->.
  reflexivity.
Qed.

Lemma loop_cons_Done (n n1 : Node) (a : Tick) (rest : list Tick) :
  ok n = true ->
  outcome (iteration n a) = Done n1 ->
  loop n (a :: rest) =
    (trace (iteration n a) ++ trace (loop n1 rest), outcome (loop n1 rest)).
Proof.
  intros Hok Hi. simpl. rewrite Hok.
  destruct (iteration n a) as [tr r]. simpl in Hi. subst r.
  unfold bind, trace, outcome. destruct (loop n1 rest); reflexivity.
Qed.

Lemma loop_cons_Undefined (n : Node) (a : Tick) (rest : list Tick) flt :
  ok n = true ->
  outcome (iteration n a) = Undefined flt ->
  loop n (a :: rest) = (trace (iteration n a), Undefined flt).
Proof.
  intros Hok Hi. simpl. rewrite Hok.
  destruct (iteration n a) as [tr r]. simpl in Hi. subst r. reflexivity.
Qed.

(** An iteration of the exploring loop keeps it exploring and running. *)
Lemma iteration_keeps_exploring (n n1 : Node) (a : Tick) :
  exploration_finished n = false ->
  ok n = true ->
  outcome (iteration n a) = Done n1 ->
  exploration_finished n1 = false /\ ok n1 = true
  /\ fmap n1 = last (incoming a) (fmap n).
Proof.
  intros Hf Hok Hi. apply iteration_outcome_inv in Hi.
  destruct Hi as [m [Hm ->]].
  destruct (deliver_flags (incoming a) m) as [_ [_ [D3 D4]]].
  destruct (tick_frame n a Hm) as [F1 [F2 [F3 _]]].
  rewrite D3, D4, deliver_fmap, F1, F2, (F3 Hf). auto.
Qed.

Lemma iteration_trace (n : Node) (a : Tick) :
  trace (iteration n a) = trace (tick n a)
  \/ trace (iteration n a) = trace (tick n a) ++ [E_spinOnce; E_sleep].
Proof.
  destruct (outcome (tick n a)) as [n1|flt] eqn:Ht.
  - right. rewrite (iteration_Done n a Ht). reflexivity.
  - left. rewrite (iteration_Undefined n a Ht). reflexivity.
Qed.

(** Counting calls through an iteration: the two calls that end it are
    none of [robot.goTo], [ROS_WARN] and the calls of [finish()]. *)
Lemma iteration_count (p : Event -> bool) (n : Node) (a : Tick) :
  p E_spinOnce = false -> p E_sleep = false ->
  count p (trace (iteration n a)) = count p (trace (tick n a)).
Proof.
  intros H1 H2. destruct (iteration_trace n a) as [-> | ->]; [reflexivity|].
  rewrite count_app. unfold count at 2. simpl. rewrite H1, H2. simpl. lia.
Qed.

(** *** Whole runs *)

Lemma tick_goTo_at_most_once (n : Node) (a : Tick) :
  count is_goTo (trace (tick n a)) <= 1.
Proof.
  destruct (existsb is_goTo (trace (tick n a))) eqn:Hd.
  - destruct (tick_dispatch_shape n a Hd) as [tr [goal [sel' [Hg Ht]]]].
    pose proof (decideGoal_no_goTo (fmap n) (goal_selector n)) as Hno.
    rewrite Hg in Hno. unfold trace in Hno. simpl in Hno.
    apply count_zero_existsb in Hno.
    rewrite Ht. cbv [trace fst].
    rewrite !count_app, Hno. unfold count. simpl. lia.
  - apply count_zero_existsb in Hd. lia.
Qed.

(** X8.  The loop hands at most one goal to [robot.goTo] per iteration:
    whatever the answers and however the run ends, the number of [goTo]
    calls is at most the number of iterations. *)
Theorem at_most_one_dispatch_per_iteration (ticks : list Tick) (n : Node) :
  count is_goTo (trace (loop n ticks)) <= List.length ticks.
Proof.
  revert n. induction ticks as [|a rest IH]; intros n.
  - simpl. unfold count. simpl. lia.
  - destruct (ok n) eqn:Hok.
    + pose proof (tick_goTo_at_most_once n a) as H1.
      rewrite <- (iteration_count is_goTo n a eq_refl eq_refl) in H1.
      destruct (outcome (iteration n a)) as [n1|flt] eqn:Hi.
      * rewrite (@loop_cons_Done n n1 a rest Hok Hi). unfold trace at 1. simpl fst.
        rewrite count_app. specialize (IH n1). simpl List.length. lia.
      * rewrite (@loop_cons_Undefined n a rest flt Hok Hi). unfold trace at 1.
        simpl fst. simpl List.length. lia.
    + rewrite (loop_stopped (a :: rest) n Hok). unfold count. simpl. lia.
Qed.

Lemma tick_no_finish (n : Node) (a : Tick) :
  exploration_finished n = false ->
  count from_finish (trace (tick n a)) = 0.
Proof.
  intros Hf.
  destruct (tick_ways n a)
    as [H|[[H1 H2]|[[H1 [H2 H3]]|[[H1 [H2 [H3 [H4 H5]]]]|[H1 [H2 [H3 H4]]]]]]].
  - rewrite (tick_no_map n a H). reflexivity.
  - congruence.
  - rewrite (tick_pose_failed n a H1 H2 H3). reflexivity.
  - rewrite (tick_keep_goal n a H1 H2 H3 H4 H5). reflexivity.
  - rewrite (tick_scan n a H1 H2 H3 H4).
    pose proof (decideGoal_events (fmap n) (goal_selector n)) as Hev.
    assert (Hout : forall e, from_decideGoal e = true -> from_finish e = false)
      by (intros e; destruct e; simpl; congruence).
    destruct (decideGoal (fmap n) (goal_selector n)) as [tr [[goal sel']|f]];
      unfold trace in *; simpl fst in *;
      change (?x :: ?y :: ?z :: ?u :: ?v :: ?w) with ([x; y; z; u; v] ++ w).
    + rewrite !count_app.
      rewrite (@count_outside_decideGoal strategy from_finish tr Hout Hev).
      reflexivity.
    + rewrite count_app.
      rewrite (@count_outside_decideGoal strategy from_finish tr Hout Hev).
      reflexivity.
Qed.

Lemma loop_no_finish (ticks : list Tick) (n : Node) :
  exploration_finished n = false ->
  ok n = true ->
  count from_finish (trace (loop n ticks)) = 0
  /\ forall n', outcome (loop n ticks) = Done n' ->
                ok n' = true /\ exploration_finished n' = false.
Proof.
  revert n. induction ticks as [|a rest IH]; intros n Hf Hok.
  - simpl. split; [reflexivity|]. intros n' [= <-]. auto.
  - pose proof (tick_no_finish n a Hf) as H1.
    rewrite <- (iteration_count from_finish n a eq_refl eq_refl) in H1.
    destruct (outcome (iteration n a)) as [n1|flt] eqn:Hi.
    + rewrite (@loop_cons_Done n n1 a rest Hok Hi). unfold trace at 1, outcome at 1.
      simpl fst. simpl snd.
      destruct (@iteration_keeps_exploring n n1 a Hf Hok Hi) as [K1 [K2 _]].
      destruct (IH n1 K1 K2) as [I1 I2].
      split; [rewrite count_app; lia | exact I2].
    + rewrite (@loop_cons_Undefined n a rest flt Hok Hi). unfold trace at 1.
      simpl fst. split; [exact H1 | discriminate].
Qed.

Lemma add_causes_trace cause (conditions : list string) :
  add_causes cause conditions =
    (map (fun c => E_addCause c (cause c)) conditions, Done tt).
Proof.
  induction conditions as [|c rest IH]; [reflexivity|].
  simpl. rewrite IH. reflexivity.
Qed.

Lemma count_addCause_from_finish cause (conditions : list string) :
  count from_finish (map (fun c => E_addCause c (cause c)) conditions) = 0.
Proof.
  unfold count. induction conditions as [|c rest IH]; simpl; [reflexivity|].
  exact IH.
Qed.

Lemma startup_shape (cfg : Config) :
  exists p,
    outcome (setup_goal_selector (goal_selector_type cfg)) = Done p
    /\ startup cfg =
         (map (fun c => E_addCause c (cause_parameters cfg c))
              (replan_conditions cfg)
            ++ trace (setup_goal_selector (goal_selector_type cfg)),
          Done (start p)).
Proof.
  destruct (setup_goal_selector_Done (goal_selector_type cfg)) as [p Hp].
  exists p. split; [exact Hp|]. unfold startup.
  rewrite add_causes_trace.
  destruct (setup_goal_selector (goal_selector_type cfg)) as [tr r].
  simpl in Hp. subst r. unfold bind. simpl. rewrite app_nil_r. reflexivity.
Qed.


Lemma spin_shape (cfg : Config) (ticks : list Tick) :
  exists p,
    outcome (setup_goal_selector (goal_selector_type cfg)) = Done p
    /\ spin cfg ticks =
         ((map (fun c => E_addCause c (cause_parameters cfg c))
               (replan_conditions cfg)
             ++ trace (setup_goal_selector (goal_selector_type cfg)))
            ++ trace (loop (start p) ticks),
          outcome (loop (start p) ticks)).
Proof.
  destruct (startup_shape cfg) as [p [Hp Hs]]. exists p.
  split; [exact Hp|]. unfold spin. rewrite Hs. unfold bind, trace, outcome.
  destruct (loop (start p) ticks); reflexivity.
Qed.

(** X10.  The node never ends the exploration by itself: in no run of
    [spin], whatever the configuration and the answers, is [finish()]
    reached (no [isMoving] query, no [cancelGoal], no [ros::shutdown]),
    and after a run that ends normally [ros::ok()] still holds and
    [exploration_finished] is still false. *)
Theorem spin_never_calls_finish (cfg : Config) (ticks : list Tick) :
  count from_finish (trace (spin cfg ticks)) = 0
  /\ forall n, outcome (spin cfg ticks) = Done n ->
               ok n = true /\ exploration_finished n = false.
Proof.
  destruct (spin_shape cfg ticks) as [p [Hp Hs]]. rewrite Hs.
  destruct (@loop_no_finish ticks (start p) eq_refl eq_refl) as [L1 L2].
  split; [|exact L2].
  cbv [trace fst] in *. rewrite !count_app, L1.
  rewrite count_addCause_from_finish.
  destruct (goal_selector_type cfg) as [name|]; simpl.
  - destruct (String.eqb name "mid_point"); reflexivity.
  - reflexivity.
Qed.

Lemma last_cons {A : Type} (l : list A) (x d : A) :
  last (x :: l) d = last l x.
Proof.
  destruct l as [|y l]; [reflexivity|].
  change (last (y :: l) d = last (y :: l) x). apply last_cons_default.
Qed.

Lemma last_app_default {A : Type} (l1 l2 : list A) (d : A) :
  last (l1 ++ l2) d = last l2 (last l1 d).
Proof.
  revert d. induction l1 as [|x l1 IH]; intros d; [reflexivity|].
  change ((x :: l1) ++ l2) with (x :: (l1 ++ l2)).
  rewrite !last_cons. apply IH.
Qed.

Lemma loop_fmap (ticks : list Tick) (n n' : Node) :
  exploration_finished n = false ->
  ok n = true ->
  outcome (loop n ticks) = Done n' ->
  fmap n' = last (List.concat (map incoming ticks)) (fmap n).
Proof.
  revert n. induction ticks as [|a rest IH]; intros n Hf Hok.
  - simpl. intros [= <-]. reflexivity.
  - destruct (outcome (iteration n a)) as [n1|flt] eqn:Hi.
    + rewrite (@loop_cons_Done n n1 a rest Hok Hi). unfold outcome at 1.
      simpl snd. intros Hl.
      destruct (@iteration_keeps_exploring n n1 a Hf Hok Hi) as [K1 [K2 K3]].
      rewrite (IH n1 K1 K2 Hl), K3. simpl map. simpl List.concat.
      rewrite last_app_default. reflexivity.
    + rewrite (@loop_cons_Undefined n a rest flt Hok Hi). discriminate.
Qed.

(** X11.  After a run of [spin] that ends normally, the frontier map is
    the last map that [ros::spinOnce()] handed to [getFrontiers] during
    the run, and the empty map if none was delivered: the callback
    replaces the map wholesale and nothing else in the loop writes it. *)
Theorem fmap_is_last_delivered_map
  (cfg : Config) (ticks : list Tick) (n : Node) :
  outcome (spin cfg ticks) = Done n ->
  fmap n = last (List.concat (map incoming ticks)) [].
Proof.
  destruct (spin_shape cfg ticks) as [p [_ Hs]]. rewrite Hs.
  unfold outcome at 1. simpl snd. intros Hl.
  apply (@loop_fmap ticks (start p) n eq_refl eq_refl Hl).
Qed.

(** *** The loop with a null selector *)

(** A tick of the exploring loop that does not reach [decideGoal()]. *)
Lemma tick_not_scanning (n : Node) (a : Tick) :
  exploration_finished n = false ->
  scans_at (first_time n) a = false ->
  outcome (tick n a) = Done n /\ count is_goTo (trace (tick n a)) = 0.
Proof.
  unfold scans_at. intros Hf Hs.
  destruct (mapReceived a) eqn:Hm.
  - destruct (refreshPose a) eqn:Hp.
    + simpl in Hs. apply orb_false_iff in Hs. destruct Hs as [Hr Ht].
      rewrite (tick_keep_goal n a Hm Hf Hp Hr Ht). split; reflexivity.
    + rewrite (tick_pose_failed n a Hm Hf Hp). split; reflexivity.
  - rewrite (tick_no_map n a Hm). split; reflexivity.
Qed.

Lemma tick_scanning_null (n : Node) (a : Tick) :
  exploration_finished n = false ->
  goal_selector n = None ->
  scans_at (first_time n) a = true ->
  tick n a =
    ([E_mapReceived true; E_setMapReceived; E_refreshPose true;
      E_replan (replan a); E_printStatus; E_decideGoal],
     Undefined NullSelector).
Proof.
  unfold scans_at. intros Hf Hsel Hs.
  apply andb_true_iff in Hs. destruct Hs as [Hs Hr].
  apply andb_true_iff in Hs. destruct Hs as [Hm Hp].
  rewrite (tick_scan n a Hm Hf Hp Hr), Hsel. reflexivity.
Qed.

(** X12.  While [goal_selector] is null the exploring loop never hands a
    goal to [robot.goTo].  It runs normally, with the pointer still null,
    through every tick that does not reach the scan, and stops at the
    first tick that does (a map is reported, the pose refresh succeeds
    and [replan()] answers true or [first_time] is set) by calling
    through the null pointer. *)
Theorem null_selector_never_dispatches (ticks : list Tick) (n : Node) :
  goal_selector n = None ->
  exploration_finished n = false ->
  ok n = true ->
  count is_goTo (trace (loop n ticks)) = 0
  /\ (existsb (scans_at (first_time n)) ticks = true ->
      outcome (loop n ticks) = Undefined NullSelector)
  /\ (existsb (scans_at (first_time n)) ticks = false ->
      exists n', outcome (loop n ticks) = Done n'
                 /\ goal_selector n' = None).
Proof.
  revert n. induction ticks as [|a rest IH]; intros n Hsel Hf Hok.
  - simpl. split; [reflexivity|]. split; [discriminate|].
    intros _. exists n. auto.
  - simpl existsb. destruct (scans_at (first_time n) a) eqn:Hs.
    + pose proof (tick_scanning_null n a Hf Hsel Hs) as Ht.
      assert (Ho : outcome (tick n a) = Undefined NullSelector)
        by (rewrite Ht; reflexivity).
      pose proof (iteration_Undefined n a Ho) as Hi.
      assert (Hio : outcome (iteration n a) = Undefined NullSelector)
        by (rewrite Hi; reflexivity).
      rewrite (@loop_cons_Undefined n a rest NullSelector Hok Hio).
      rewrite Hi, Ht. split; [reflexivity|]. split; [reflexivity|].
      discriminate.
    + destruct (tick_not_scanning n a Hf Hs) as [Ho Hc].
      pose proof (iteration_Done n a Ho) as Hi.
      assert (Hio : outcome (iteration n a)
                    = Done (fold_left getFrontiers (incoming a) n))
        by (rewrite Hi; reflexivity).
      destruct (deliver_flags (incoming a) n) as [D1 [D2 [D3 D4]]].
      destruct (IH (fold_left getFrontiers (incoming a) n))
        as [I1 [I2 I3]]; [congruence | congruence | congruence |].
      rewrite D2 in I2, I3.
      rewrite <- (iteration_count is_goTo n a eq_refl eq_refl) in Hc.
      pose proof (@loop_cons_Done n _ a rest Hok Hio) as Hl.
      assert (Hlt : trace (loop n (a :: rest)) =
                trace (iteration n a)
                  ++ trace (loop (fold_left getFrontiers (incoming a) n) rest))
        by (rewrite Hl; reflexivity).
      assert (Hlo : outcome (loop n (a :: rest)) =
                outcome (loop (fold_left getFrontiers (incoming a) n) rest))
        by (rewrite Hl; reflexivity).
      rewrite Hlt, Hlo, count_app, I1, Hc.
      split; [reflexivity|]. split; assumption.
Qed.

(** *** Warnings *)

Lemma tick_warns (n : Node) (a : Tick) :
  exploration_finished n = false ->
  count is_ROS_WARN (trace (tick n a)) = if pose_fails a then 1 else 0.
Proof.
  intros Hf. unfold pose_fails.
  destruct (tick_ways n a)
    as [H|[[H1 H2]|[[H1 [H2 H3]]|[[H1 [H2 [H3 [H4 H5]]]]|[H1 [H2 [H3 H4]]]]]]].
  - rewrite (tick_no_map n a H), H. reflexivity.
  - congruence.
  - rewrite (tick_pose_failed n a H1 H2 H3), H1, H3. reflexivity.
  - rewrite (tick_keep_goal n a H1 H2 H3 H4 H5), H1, H3. reflexivity.
  - rewrite (tick_scan n a H1 H2 H3 H4), H1, H3.
    pose proof (decideGoal_events (fmap n) (goal_selector n)) as Hev.
    assert (Hout : forall e, from_decideGoal e = true -> is_ROS_WARN e = false)
      by (intros e; destruct e; simpl; congruence).
    destruct (decideGoal (fmap n) (goal_selector n)) as [tr [[goal sel']|f]];
      unfold trace in *; simpl fst in *;
      change (?x :: ?y :: ?z :: ?u :: ?v :: ?w) with ([x; y; z; u; v] ++ w).
    + rewrite !count_app.
      rewrite (@count_outside_decideGoal strategy is_ROS_WARN tr Hout Hev).
      reflexivity.
    + rewrite count_app.
      rewrite (@count_outside_decideGoal strategy is_ROS_WARN tr Hout Hev).
      reflexivity.
Qed.

(** X13.  The warning about the robot position is logged on every tick
    on which the pose refresh fails, not once per outage: over a run of
    the exploring loop that ends normally, the number of warnings is the
    number of ticks on which a map was reported and the refresh failed. *)
Theorem every_failed_refresh_is_warned (ticks : list Tick) (n n' : Node) :
  exploration_finished n = false ->
  ok n = true ->
  outcome (loop n ticks) = Done n' ->
  count is_ROS_WARN (trace (loop n ticks))
  = List.length (filter pose_fails ticks).
Proof.
  revert n. induction ticks as [|a rest IH]; intros n Hf Hok.
  - intros _. reflexivity.
  - pose proof (tick_warns n a Hf) as Hw.
    rewrite <- (iteration_count is_ROS_WARN n a eq_refl eq_refl) in Hw.
    destruct (outcome (iteration n a)) as [n1|flt] eqn:Hi.
    + pose proof (@loop_cons_Done n n1 a rest Hok Hi) as Hc.
      assert (Hlt : trace (loop n (a :: rest)) =
                trace (iteration n a) ++ trace (loop n1 rest))
        by (rewrite Hc; reflexivity).
      assert (Hlo : outcome (loop n (a :: rest)) = outcome (loop n1 rest))
        by (rewrite Hc; reflexivity).
      rewrite Hlt, Hlo. intros Hl.
      destruct (@iteration_keeps_exploring n n1 a Hf Hok Hi) as [K1 [K2 _]].
      rewrite count_app, Hw, (IH n1 K1 K2 Hl). simpl filter.
      destruct (pose_fails a); reflexivity.
    + rewrite (@loop_cons_Undefined n a rest flt Hok Hi). discriminate.
Qed.

(** *** Runs in two parts *)





End FurtherProperties.

(** *** The further properties at concrete inputs *)

(** X1 on the frontiers 1, 2, 3. *)
Lemma returned_goal_20_is_first_accepted :
  exists pre f post sel1 goal1,
    [1; 2; 3] = pre ++ f :: post
    /\ @Declined even_only tt 0 pre sel1 goal1
    /\ @goalSelector_decideGoal even_only sel1 f goal1 = (true, 20, tt)
    /\ [E_decideGoal; ev_select 1 false; ev_select 2 true;
        ev_publish_f_goal 2; ev_publish_goal 20]
       = E_decideGoal :: map (fun x => ev_select x false) pre
           ++ [ev_select f true; ev_publish_f_goal f; ev_publish_goal 20].
Proof.
  apply (@decideGoal_result_is_first_accepted even_only [1; 2; 3] tt
           [E_decideGoal; ev_select 1 false; ev_select 2 true;
            ev_publish_f_goal 2; ev_publish_goal 20] 20 tt).
  reflexivity.
Defined.

(** X2 on the frontiers 1, 3, both declined. *)
Lemma scan_of_1_3_fails_past_the_end :
  PastTheEnd = PastTheEnd
  /\ (exists sel' goal', @Declined even_only tt 0 [1; 3] sel' goal')
  /\ [E_decideGoal; ev_select 1 false; ev_select 3 false]
     = E_decideGoal :: map (fun x => ev_select x false) [1; 3].
Proof.
  apply (@decideGoal_fails_only_past_the_end even_only [1; 3] tt
           [E_decideGoal; ev_select 1 false; ev_select 3 false] PastTheEnd).
  reflexivity.
Defined.

(** X4 on the frontiers 1, 2, 3 with the stateless selector. *)
Lemma stateless_scans_of_1_2_3_agree :
  tt = tt
  /\ @decideGoal_twice even_only [1; 2; 3] tt
     = ([E_decideGoal; ev_select 1 false; ev_select 2 true;
         ev_publish_f_goal 2; ev_publish_goal 20]
          ++ [E_decideGoal; ev_select 1 false; ev_select 2 true;
              ev_publish_f_goal 2; ev_publish_goal 20],
        Done (20, 20)).
Proof.
  apply (@stateless_scans_agree even_only [1; 2; 3] tt
           [E_decideGoal; ev_select 1 false; ev_select 2 true;
            ev_publish_f_goal 2; ev_publish_goal 20] 20 tt).
  - intros sel f goal. simpl. destruct (Nat.even f); reflexivity.
  - reflexivity.
Defined.

(** X5 on a replanning tick over the frontiers 3, 4. *)
Lemma dispatched_goal_40_comes_from_the_map :
  exists tr f goal sel',
    In f [3; 4]
    /\ trace (@tick even_only (ev_node [3; 4] (Some tt) false false true)
                (ev_tick true true true false []))
       = tr ++ [ev_select f true; ev_publish_f_goal f;
                ev_publish_goal goal; ev_goTo goal]
    /\ outcome (@tick even_only (ev_node [3; 4] (Some tt) false false true)
                  (ev_tick true true true false []))
       = Done (set_goal_selector (Some sel')
                 (set_first_time false
                    (ev_node [3; 4] (Some tt) false false true))).
Proof.
  apply (@dispatched_goal_comes_from_the_map even_only
           (ev_node [3; 4] (Some tt) false false true)
           (ev_tick true true true false [])).
  reflexivity.
Defined.

(** X6 on a tick with a false replanning verdict. *)
Lemma quiet_tick_changes_nothing :
  outcome (@tick even_only (ev_node [3; 4] (Some tt) false false true)
             (ev_tick true true false false [[5]]))
  = Done (ev_node [3; 4] (Some tt) false false true)
  /\ ev_node [3; 4] (Some tt) false false true
     = ev_node [3; 4] (Some tt) false false true.
Proof.
  split; [reflexivity|].
  apply (@tick_without_dispatch_changes_nothing even_only
           (ev_node [3; 4] (Some tt) false false true)
           (ev_node [3; 4] (Some tt) false false true)
           (ev_tick true true false false [[5]])).
  - reflexivity.
  - reflexivity.
  - reflexivity.
Defined.

(** X11 on a run with three delivered maps. *)
Lemma fmap_after_three_deliveries :
  fmap (ev_node [6] (Some tt) false false true)
  = last (List.concat
            (map (@incoming even_only)
               [ ev_tick false false false false [[1; 2]; [4]];
                 ev_tick true true false false [];
                 ev_tick true false false false [[6]] ])) [].
Proof.
  apply (@fmap_is_last_delivered_map even_only plain_config
           [ ev_tick false false false false [[1; 2]; [4]];
             ev_tick true true false false [];
             ev_tick true false false false [[6]] ]
           (ev_node [6] (Some tt) false false true)).
  reflexivity.
Defined.

(** X12 from the start with a null selector: a tick with a failed pose
    refresh, then the tick that reaches the scan. *)
Lemma null_selector_run_stops_at_first_scan :
  count is_goTo
    (trace (@loop even_only (ev_start None)
              [ ev_tick true false false false [[2]];
                ev_tick true true false false [] ])) = 0
  /\ (true = true ->
      outcome (@loop even_only (ev_start None)
                 [ ev_tick true false false false [[2]];
                   ev_tick true true false false [] ])
      = Undefined NullSelector)
  /\ (true = false ->
      exists n',
        outcome (@loop even_only (ev_start None)
                   [ ev_tick true false false false [[2]];
                     ev_tick true true false false [] ]) = Done n'
        /\ goal_selector n' = None).
Proof.
  apply (@null_selector_never_dispatches even_only
           [ ev_tick true false false false [[2]];
             ev_tick true true false false [] ]
           (ev_start None)).
  - reflexivity.
  - reflexivity.
  - reflexivity.
Defined.

(** X13 on a run with two failed pose refreshes around a dispatch. *)
Lemma two_failed_refreshes_two_warnings :
  count is_ROS_WARN
    (trace (@loop even_only (ev_node [2] (Some tt) true false true)
              [ ev_tick true false false false [];
                ev_tick true true false false [];
                ev_tick true false false false [] ])) = 2.
Proof.
  apply (@every_failed_refresh_is_warned even_only
           [ ev_tick true false false false [];
             ev_tick true true false false [];
             ev_tick true false false false [] ]
           (ev_node [2] (Some tt) true false true)
           (ev_node [2] (Some tt) false false true)).
  - reflexivity.
  - reflexivity.
  - reflexivity.
Defined.
